(** * google-docs-nodejs: HTML to Docs / Sheets / Slides conversion service

    A shallow embedding of [src/index.js]: the two slide segmenters
    ([extractSlidesFromHtml], [extractSlidesFromHtml_SlideShow]), the layout
    projection built by the two slide endpoints ([slideRequests]) and the
    four POST handlers, followed by the properties established about them.

    JavaScript strings are sequences of UTF-16 code units; the DOM is a tree
    of text, comment and element nodes; the handlers are finite interaction
    trees over the outbound calls they await. *)

From Stdlib Require Import List NArith ZArith Bool String Ascii Lia Arith.
From Stdlib Require Import DecimalString DecimalNat.
Import ListNotations.

Set Implicit Arguments.
Set Warnings "-register-all".

(* ================================================================== *)
(** ** JavaScript strings *)
(* ================================================================== *)

Module JsString.

(** A string is its list of UTF-16 code units. *)
Definition jsstr := list N.

(** An ASCII literal of the source. *)
Definition lit (s : string) : jsstr :=
  map N_of_ascii (list_ascii_of_string s).

Definition eqb (a b : jsstr) : bool :=
  if list_eq_dec N.eq_dec a b then true else false.

(** [if (s)] on a string: the empty string is the only falsy one. *)
Definition nonempty (s : jsstr) : bool :=
  match s with [] => false | _ :: _ => true end.

(** The class [\s] of a regular expression, which is also what
    [String.prototype.trim] strips (WhiteSpace and LineTerminator). *)
Definition is_ws (c : N) : bool :=
  ((9 <=? c) && (c <=? 13)            (* \t \n \v \f \r *)
   || (c =? 32)                      (* space *)
   || (c =? 160)                     (* U+00A0 *)
   || (c =? 5760)                    (* U+1680 *)
   || ((8192 <=? c) && (c <=? 8202)) (* U+2000 .. U+200A *)
   || (c =? 8232) || (c =? 8233)     (* U+2028, U+2029 *)
   || (c =? 8239)                    (* U+202F *)
   || (c =? 8287)                    (* U+205F *)
   || (c =? 12288)                   (* U+3000 *)
   || (c =? 65279))%N.               (* U+FEFF *)

Fixpoint trimStart (s : jsstr) : jsstr :=
  match s with
  | [] => []
  | c :: s' => if is_ws c then trimStart s' else s
  end.

Definition trimEnd (s : jsstr) : jsstr := rev (trimStart (rev s)).

(** [s.trim()] *)
Definition trim (s : jsstr) : jsstr := trimEnd (trimStart s).

(** [s.replace(/\s+/g, " ")]: every maximal run of white space becomes one
    space. [in_run] tells that the previous code unit was white space. *)
Fixpoint replace_ws_runs (in_run : bool) (s : jsstr) : jsstr :=
  match s with
  | [] => []
  | c :: s' =>
      if is_ws c
      then (if in_run then replace_ws_runs true s'
            else 32%N :: replace_ws_runs true s')
      else c :: replace_ws_runs false s'
  end.

Definition collapse_ws (s : jsstr) : jsstr := replace_ws_runs false s.

(** [s.replace(/\s+/g, " ").trim()], the normalisation of the segmenter. *)
Definition normalize (s : jsstr) : jsstr := trim (collapse_ws s).

(** The first code unit exists and is not white space. *)
Definition head_ok (s : jsstr) : Prop :=
  match s with
  | [] => False
  | c :: _ => is_ws c = false
  end.

(** A non-empty string that neither starts nor ends with white space. *)
Definition trimmed (s : jsstr) : Prop := head_ok s /\ head_ok (rev s).

(** [arr.join(sep)] *)
Fixpoint join (sep : jsstr) (l : list jsstr) : jsstr :=
  match l with
  | [] => []
  | [x] => x
  | x :: l' => x ++ sep ++ join sep l'
  end.

(** The line feed, ["\n"]. *)
Definition nl : jsstr := [10%N].

(** [String(n)] for a non-negative integer: its decimal digits. *)
Definition of_nat (n : nat) : jsstr :=
  lit (NilZero.string_of_uint (Nat.to_uint n)).

(** [x] occurs in [s] as a substring. *)
Definition contains (x s : jsstr) : Prop :=
  exists pre post, s = pre ++ x ++ post.

(** The code points of a string: a high surrogate followed by a low one
    is one supplementary code point, any other code unit stands for itself. *)
Fixpoint codePoints (s : jsstr) : list N :=
  match s with
  | [] => []
  | hi :: s' =>
      match s' with
      | lo :: s'' =>
          if ((55296 <=? hi) && (hi <=? 56319)
              && (56320 <=? lo) && (lo <=? 57343))%N
          then (65536 + (hi - 55296) * 1024 + (lo - 56320))%N
                 :: codePoints s''
          else hi :: codePoints s'
      | [] => [hi]
      end
  end.

End JsString.
Import JsString.

(* ================================================================== *)
(** ** The DOM *)
(* ================================================================== *)

Module Dom.

(** A node of a parsed HTML document. [tagName] is the upper-case name the
    DOM reports for an HTML element. *)
Inductive node : Type :=
| TextNode (data : jsstr)
| CommentNode (data : jsstr)
| ElementNode (tagName : string) (childNodes : list node).

(** The document the HTML parser builds: an [html] element holding a [head]
    and a [body]; the fields are the child nodes of these two elements. *)
Record document : Type := {
  head : list node;
  body : list node
}.

Definition is_element (n : node) : bool :=
  match n with ElementNode _ _ => true | _ => false end.

(** [el.tagName === t] *)
Definition has_tag (t : string) (n : node) : bool :=
  match n with ElementNode t' _ => String.eqb t' t | _ => false end.

(** [parent.children]: the element children, in order. *)
Definition children (l : list node) : list node := filter is_element l.

(** [n.textContent]: the text of all text-node descendants, in order. *)
Fixpoint textContent (n : node) : jsstr :=
  match n with
  | TextNode s => s
  | CommentNode _ => []
  | ElementNode _ kids => flat_map textContent kids
  end.

(** First node, in document order, of the subtree rooted at [n] (root
    included) that is an element named [t]. *)
Fixpoint first_in_subtree (t : string) (n : node) : option node :=
  match n with
  | ElementNode t' kids =>
      if String.eqb t' t then Some n
      else (fix first_in (l : list node) : option node :=
              match l with
              | [] => None
              | k :: l' =>
                  match first_in_subtree t k with
                  | Some r => Some r
                  | None => first_in l'
                  end
              end) kids
  | _ => None
  end.

Fixpoint first_in_list (t : string) (l : list node) : option node :=
  match l with
  | [] => None
  | k :: l' =>
      match first_in_subtree t k with
      | Some r => Some r
      | None => first_in_list t l'
      end
  end.

(** [el.querySelector(t)]: the first descendant of [el] named [t]. *)
Definition querySelector (t : string) (el : node) : option node :=
  match el with
  | ElementNode _ kids => first_in_list t kids
  | _ => None
  end.

(** The elements named [t] in the subtree of [n], in document order, each
    with the nodes that follow it under its parent ([after] for [n]). *)
Fixpoint select_in_subtree (t : string) (n : node) (after : list node)
  : list (node * list node) :=
  match n with
  | ElementNode t' kids =>
      (if String.eqb t' t then [(n, after)] else [])
      ++ (fix select_in (l : list node) : list (node * list node) :=
            match l with
            | [] => []
            | k :: l' => select_in_subtree t k l' ++ select_in l'
            end) kids
  | _ => []
  end.

Fixpoint select_in_list (t : string) (l : list node)
  : list (node * list node) :=
  match l with
  | [] => []
  | k :: l' => select_in_subtree t k l' ++ select_in_list t l'
  end.

(** [document.querySelectorAll(t)], each match kept with its following
    siblings so that [nextElementSibling] can be walked from it. *)
Definition querySelectorAll (t : string) (d : document)
  : list (node * list node) :=
  select_in_list t (head d) ++ select_in_list t (body d).

(** Number of elements named [t] in a forest. *)
Fixpoint count_in_subtree (t : string) (n : node) : nat :=
  match n with
  | ElementNode t' kids =>
      (if String.eqb t' t then 1 else 0)
      + (fix count_in (l : list node) : nat :=
           match l with
           | [] => 0
           | k :: l' => count_in_subtree t k + count_in l'
           end) kids
  | _ => 0
  end.

Fixpoint count_in_list (t : string) (l : list node) : nat :=
  match l with
  | [] => 0
  | k :: l' => count_in_subtree t k + count_in_list t l'
  end.

(** Number of elements named [t] in the document. *)
Definition count_elements (t : string) (d : document) : nat :=
  count_in_list t (head d) + count_in_list t (body d).

End Dom.
Import Dom.

(* ================================================================== *)
(** ** Slide records and the two segmenters *)
(* ================================================================== *)

Record slide : Type := {
  title : jsstr;
  description : jsstr
}.

Module Segmenter.

(** [isStrongOnlyTitle]: the paragraph's whole text is its first [strong]
    descendant's text, both normalised. *)
Definition isStrongOnlyTitle (p : node) : bool :=
  match querySelector "STRONG" p with
  | None => false
  | Some strong =>
      let allText := trim (collapse_ws (textContent p)) in
      let strongText := trim (collapse_ws (textContent strong)) in
      JsString.eqb allText strongText
  end.

(** The test of the loop: [el.tagName === "P" && isStrongOnlyTitle(el)]. *)
Definition is_title_boundary (el : node) : bool :=
  has_tag "P" el && isStrongOnlyTitle el.

(** The loop's variables. [slides] is the array of slide objects;
    [lastSlide] refers to one of them, by its position in the array, so
    that an assignment through [lastSlide] is seen in [slides]. *)
Record state : Type := {
  slides : list slide;
  lastSlide : option nat;
  buffer : list jsstr
}.

Definition init : state :=
  {| slides := []; lastSlide := None; buffer := [] |}.

(** [slides[i].description = d] *)
Fixpoint set_description (i : nat) (d : jsstr) (l : list slide) : list slide :=
  match l, i with
  | [], _ => []
  | s :: l', O => {| title := title s; description := d |} :: l'
  | s :: l', S i' => s :: set_description i' d l'
  end.

(** [if (lastSlide) lastSlide.description = buffer.join("\n\n").trim()] *)
Definition close_slide (st : state) : list slide :=
  match lastSlide st with
  | Some i => set_description i (trim (join (nl ++ nl) (buffer st))) (slides st)
  | None => slides st
  end.

(** One iteration of [for (const el of children)]. *)
Definition step (st : state) (el : node) : state :=
  if is_title_boundary el then
    let closed := close_slide st in
    {| slides := closed ++ [ {| title := trim (textContent el);
                                description := [] |} ];
       lastSlide := Some (List.length closed);
       buffer := [] |}
  else
    let text := trim (collapse_ws (textContent el)) in
    {| slides := slides st;
       lastSlide := lastSlide st;
       buffer := if nonempty text then buffer st ++ [text] else buffer st |}.

(** [if (lastSlide && buffer.length) lastSlide.description = ...] *)
Definition flush (st : state) : list slide :=
  match lastSlide st, buffer st with
  | Some _, _ :: _ => close_slide st
  | _, _ => slides st
  end.

(** [s.title && typeof s.description === "string"]: the description of a
    slide record is always a string. *)
Definition keep (s : slide) : bool := nonempty (title s).

(** [extractSlidesFromHtml(html)], from the document [new JSDOM(html)]
    gives. *)
Definition extractSlidesFromHtml (d : document) : list slide :=
  filter keep (flush (fold_left step (children (body d)) init)).

(** The [while] loop over [nextElementSibling]:
    [description += sibling.textContent + "\n"] until an [h2] or the end. *)
Fixpoint collect_description (siblings : list node) : jsstr :=
  match siblings with
  | [] => []
  | ElementNode t kids :: rest =>
      if String.eqb t "H2" then []
      else textContent (ElementNode t kids) ++ nl ++ collect_description rest
  | _ :: rest => collect_description rest
  end.

(** The callback of [h2Elements.forEach]. *)
Definition slide_of_h2 (h : node * list node) : slide :=
  {| title := trim (textContent (fst h));
     description := trim (collect_description (snd h)) |}.

(** [extractSlidesFromHtml_SlideShow(html)], from the document
    [new JSDOM(html)] gives. *)
Definition extractSlidesFromHtml_SlideShow (d : document) : list slide :=
  map slide_of_h2 (querySelectorAll "H2" d).

End Segmenter.
Import Segmenter.

(* ================================================================== *)
(** ** Layout commands of the Slides API and the layout projection *)
(* ================================================================== *)

Module Layout.

Record dimension : Type := { magnitude : Z; dimension_unit : jsstr }.

Record size_t : Type := { height : dimension; width : dimension }.

Record transform_t : Type := {
  scaleX : Z;
  scaleY : Z;
  translateX : Z;
  translateY : Z;
  transform_unit : jsstr
}.

Record elementProperties_t : Type := {
  pageObjectId : jsstr;
  size : size_t;
  transform : transform_t
}.

(** One entry of the [requests] array of [presentations.batchUpdate]. *)
Inductive request : Type :=
| createSlide (objectId : jsstr) (predefinedLayout : jsstr)
| createImage (objectId url : jsstr) (elementProperties : elementProperties_t)
| createShape (objectId shapeType : jsstr)
              (elementProperties : elementProperties_t)
| insertText (objectId text : jsstr) (insertionIndex : Z)
| updateTextStyle (objectId : jsstr) (fontSize : dimension) (bold : bool)
                  (fields : jsstr)
| deleteObject (objectId : jsstr).

Definition PT (m : Z) : dimension :=
  {| magnitude := m; dimension_unit := lit "PT" |}.

Definition BACKGROUND_IMAGE_URL : jsstr :=
  lit "https://9b05dd864822d678c9fcbed18bf8311c.cdn.bubble.io/f1753546339862x395890190803218200/background.PNG?_gl=1*1bmqctz*_gcl_au*MTgxNzI2MDE2OC4xNzQ2NDU3OTc5*_ga*MjAzNTQ2NTk5LjE2NzcyMzIwNjY.*_ga_BFPVR2DEE2*czE3NTM1MzQ0NTckbzIxOSRnMSR0MTc1MzU0NjAzNiRqNjAkbDAkaDA.".

Definition LOGO_IMAGE_URL : jsstr :=
  lit "https://9b05dd864822d678c9fcbed18bf8311c.cdn.bubble.io/f1753458006954x918763125344364000/46c94753-1589-47cd-8efa-cd023be6bd4a.png?_gl=1*zow64b*_gcl_au*MTgxNzI2MDE2OC4xNzQ2NDU3OTc5*_ga*MjAzNTQ2NTk5LjE2NzcyMzIwNjY.*_ga_BFPVR2DEE2*czE3NTM1MzQ0NTckbzIxOSRnMSR0MTc1MzU0NjAzNiRqNjAkbDAkaDA.".

(** [arr.forEach((x, index) => { ... out.push(..) ... })]: [f x index] is
    what one call of the callback pushes, in order. *)
Fixpoint forEach_push {A B : Type} (f : A -> nat -> list B)
         (l : list A) (index : nat) (out : list B) : list B :=
  match l with
  | [] => out
  | x :: l' => forEach_push f l' (S index) (out ++ f x index)
  end.

(** The callback of [slidesData.forEach] in POST /create-slides. *)
Definition create_slides_callback (slide : slide) (index : nat)
  : list request :=
  let slideId := lit "slide_" ++ of_nat (index + 1) in
  [ createSlide slideId (lit "BLANK");
    createImage (lit "bg_" ++ slideId) BACKGROUND_IMAGE_URL
      {| pageObjectId := slideId;
         size := {| height := PT 405; width := PT 720 |};
         transform := {| scaleX := 1; scaleY := 1;
                         translateX := 0; translateY := 0;
                         transform_unit := lit "PT" |} |};
    createImage (lit "logo_" ++ slideId) LOGO_IMAGE_URL
      {| pageObjectId := slideId;
         size := {| height := PT 40; width := PT 40 |};
         transform := {| scaleX := 1; scaleY := 1;
                         translateX := 10; translateY := 340;
                         transform_unit := lit "PT" |} |};
    createShape (lit "footer_" ++ slideId) (lit "TEXT_BOX")
      {| pageObjectId := slideId;
         size := {| height := PT 20; width := PT 200 |};
         transform := {| scaleX := 1; scaleY := 1;
                         translateX := 540; translateY := 370;
                         transform_unit := lit "PT" |} |};
    insertText (lit "footer_" ++ slideId) (lit "HelpMeTeach.AI") 0;
    createShape (lit "title_" ++ slideId) (lit "TEXT_BOX")
      {| pageObjectId := slideId;
         size := {| height := PT 50; width := PT 600 |};
         transform := {| scaleX := 1; scaleY := 1;
                         translateX := 60; translateY := 50;
                         transform_unit := lit "PT" |} |};
    insertText (lit "title_" ++ slideId) (title slide) 0;
    updateTextStyle (lit "title_" ++ slideId) (PT 18) true
                    (lit "fontSize,bold");
    createShape (lit "desc_" ++ slideId) (lit "TEXT_BOX")
      {| pageObjectId := slideId;
         size := {| height := PT 80; width := PT 600 |};
         transform := {| scaleX := 1; scaleY := 1;
                         translateX := 60; translateY := 70;
                         transform_unit := lit "PT" |} |};
    insertText (lit "desc_" ++ slideId) (description slide) 0;
    updateTextStyle (lit "desc_" ++ slideId) (PT 14) false
                    (lit "fontSize,bold") ].

(** The callback of [slidesData.forEach] in POST /create-slides-show. *)
Definition create_slides_show_callback (slide : slide) (index : nat)
  : list request :=
  let slideId := lit "slide_" ++ of_nat (index + 1) in
  [ createSlide slideId (lit "BLANK");
    createImage (lit "bg_" ++ slideId) BACKGROUND_IMAGE_URL
      {| pageObjectId := slideId;
         size := {| height := PT 405; width := PT 720 |};
         transform := {| scaleX := 1; scaleY := 1;
                         translateX := 0; translateY := 0;
                         transform_unit := lit "PT" |} |};
    createImage (lit "logo_" ++ slideId) LOGO_IMAGE_URL
      {| pageObjectId := slideId;
         size := {| height := PT 40; width := PT 40 |};
         transform := {| scaleX := 1; scaleY := 1;
                         translateX := 10; translateY := 340;
                         transform_unit := lit "PT" |} |};
    createShape (lit "footer_" ++ slideId) (lit "TEXT_BOX")
      {| pageObjectId := slideId;
         size := {| height := PT 20; width := PT 200 |};
         transform := {| scaleX := 1; scaleY := 1;
                         translateX := 540; translateY := 370;
                         transform_unit := lit "PT" |} |};
    insertText (lit "footer_" ++ slideId) (lit "HelpMeTeach.AI") 0;
    createShape (lit "title_" ++ slideId) (lit "TEXT_BOX")
      {| pageObjectId := slideId;
         size := {| height := PT 50; width := PT 600 |};
         transform := {| scaleX := 1; scaleY := 1;
                         translateX := 60; translateY := 50;
                         transform_unit := lit "PT" |} |};
    insertText (lit "title_" ++ slideId) (title slide) 0;
    updateTextStyle (lit "title_" ++ slideId) (PT 18) true
                    (lit "fontSize,bold");
    createShape (lit "desc_" ++ slideId) (lit "TEXT_BOX")
      {| pageObjectId := slideId;
         size := {| height := PT 80; width := PT 600 |};
         transform := {| scaleX := 1; scaleY := 1;
                         translateX := 60; translateY := 100;
                         transform_unit := lit "PT" |} |};
    insertText (lit "desc_" ++ slideId) (description slide) 0;
    updateTextStyle (lit "desc_" ++ slideId) (PT 14) false
                    (lit "fontSize,bold") ].

(** [slideRequests] as POST /create-slides builds it. *)
Definition slideRequests_create_slides (slidesData : list slide)
  : list request :=
  forEach_push create_slides_callback slidesData 0 [].

(** [slideRequests] as POST /create-slides-show builds it. *)
Definition slideRequests_create_slides_show (slidesData : list slide)
  : list request :=
  forEach_push create_slides_show_callback slidesData 0 [].

(** The two endpoints that run the layout projection. *)
Inductive endpoint : Type := CreateSlides | CreateSlidesShow.

Definition callback_of (ep : endpoint) : slide -> nat -> list request :=
  match ep with
  | CreateSlides => create_slides_callback
  | CreateSlidesShow => create_slides_show_callback
  end.

Definition slideRequests_of (ep : endpoint) (slidesData : list slide)
  : list request :=
  match ep with
  | CreateSlides => slideRequests_create_slides slidesData
  | CreateSlidesShow => slideRequests_create_slides_show slidesData
  end.

(** *** Reading a command *)

Definition is_createSlide (c : request) : bool :=
  match c with createSlide _ _ => true | _ => false end.

(** The identifier of the shape or image a command creates. *)
Definition shape_or_image_id (c : request) : option jsstr :=
  match c with
  | createImage id _ _ | createShape id _ _ => Some id
  | _ => None
  end.

(** The identifier of the object a command creates. *)
Definition creates (c : request) : option jsstr :=
  match c with
  | createSlide id _ | createImage id _ _ | createShape id _ _ => Some id
  | _ => None
  end.

(** The identifiers a command refers to without creating them: the text
    box of insert-text and set-text-style, the parent slide of an image or
    shape, the target of a deletion. *)
Definition references (c : request) : list jsstr :=
  match c with
  | createSlide _ _ => []
  | createImage _ _ ep | createShape _ _ ep => [pageObjectId ep]
  | insertText id _ _ | updateTextStyle id _ _ _ | deleteObject id => [id]
  end.

(** Every identifier a command refers to is created by an earlier command
    of the sequence. *)
Definition dependency_ordered (reqs : list request) : Prop :=
  forall before c after id,
    reqs = before ++ c :: after ->
    In id (references c) ->
    exists c', In c' before /\ creates c' = Some id.

(** The same property as a scan that carries the identifiers created so
    far. *)
Fixpoint ordered_from (seen : list jsstr) (reqs : list request) : Prop :=
  match reqs with
  | [] => True
  | c :: rest =>
      (forall id, In id (references c) -> In id seen)
      /\ ordered_from (match creates c with
                       | Some id => id :: seen
                       | None => seen
                       end) rest
  end.

(** [s.startsWith(p)] *)
Fixpoint starts_with (p s : jsstr) : bool :=
  match p, s with
  | [], _ => true
  | a :: p', b :: s' => N.eqb a b && starts_with p' s'
  | _ :: _, [] => false
  end.

Definition set_translateY (y : Z) (ep : elementProperties_t)
  : elementProperties_t :=
  {| pageObjectId := pageObjectId ep;
     size := size ep;
     transform := {| scaleX := scaleX (transform ep);
                     scaleY := scaleY (transform ep);
                     translateX := translateX (transform ep);
                     translateY := y;
                     transform_unit := transform_unit (transform ep) |} |}.

(** Place the description text box (the shape whose identifier starts with
    [desc_]) at [y] points from the top, and touch nothing else. *)
Definition place_description (y : Z) (c : request) : request :=
  match c with
  | createShape id st ep =>
      if starts_with (lit "desc_") id
      then createShape id st (set_translateY y ep)
      else c
  | _ => c
  end.

End Layout.
Import Layout.

(* ================================================================== *)
(** ** Requests, outbound calls and the handler monad *)
(* ================================================================== *)

Module Js.

(** A value of a parsed JSON body, as far as the handlers look at it;
    numbers are kept when integral, arrays and objects are opaque. *)
Inductive jsval : Type :=
| JUndefined
| JNull
| JBool (b : bool)
| JNumber (z : Z)
| JString (s : jsstr)
| JObject.

(** [if (v)] *)
Definition truthy (v : jsval) : bool :=
  match v with
  | JUndefined | JNull => false
  | JBool b => b
  | JNumber z => negb (Z.eqb z 0)
  | JString s => nonempty s
  | JObject => true
  end.

(** The message of a thrown or rejected error. *)
Definition exn := jsstr.

(** What an operation that may throw gives: [inl message] or [inr value]. *)
Definition result (X : Type) : Type := (exn + X)%type.

End Js.
Import Js.

(** [req.body] when the JSON parser produced an object, read through the
    handlers' destructuring patterns: a field the object lacks is
    [JUndefined]. A handler receives [Some] such body, or [None] when no
    body was parsed and [req.body] is [undefined]. *)
Module Req.
Record body : Type := {
  html_base64 : jsval;
  access_token : jsval;
  file_name : jsval;
  title : jsval
}.
End Req.

Module Docs.

Record range_t : Type := { startIndex : Z; endIndex : Z }.

Inductive direction_t : Type := RIGHT_TO_LEFT | LEFT_TO_RIGHT.

(** One entry of the [requests] array of [documents.batchUpdate]. *)
Inductive request : Type :=
| updateParagraphStyle (range : range_t) (direction : direction_t)
                       (fields : jsstr).

(** An entry of [doc.data.body.content]; only its [endIndex] is read. *)
Record structuralElement : Type := { se_endIndex : Z }.

End Docs.

Module Sheets.

(** A colour; the components are in hundredths (0.25 is 25). *)
Record color : Type := { red : Z; green : Z; blue : Z }.

Record gridRange : Type := {
  sheetId : Z;
  startRowIndex : nat;
  endRowIndex : nat
}.

Record textFormat_t : Type := {
  foregroundColor : option color;
  fontSize : Z;
  bold : option bool
}.

Record cellFormat : Type := {
  backgroundColor : color;
  horizontalAlignment : option jsstr;
  textFormat : textFormat_t
}.

(** One entry of the [requests] array of [spreadsheets.batchUpdate]. *)
Inductive request : Type :=
| repeatCell (range : gridRange) (userEnteredFormat : cellFormat)
             (fields : jsstr).

End Sheets.

Module Io.

(** The bytes of a generated DOCX file. *)
Definition bytes := list N.

(** An entry of [data.slides] of a presentation; only [objectId] is read. *)
Record page : Type := { page_objectId : jsstr }.

(** The outbound calls a handler awaits or performs, with the arguments
    that depend on the request. The credentials given to the API client
    are the first argument of each Google API call. *)
Inductive call : Type :=
| htmlToDocx (html : jsstr)
| fs_writeFileSync (data : bytes)
| drive_files_create (auth : jsval) (name : jsval)
| fs_unlinkSync
| docs_documents_get (auth : jsval) (documentId : jsstr)
| docs_documents_batchUpdate (auth : jsval) (documentId : jsstr)
                             (requests : list Docs.request)
| sheets_spreadsheets_create (auth : jsval) (title : jsval)
| sheets_spreadsheets_values_update (auth : jsval) (spreadsheetId : jsstr)
                                    (range : jsstr)
                                    (values : list (list jsstr))
| sheets_spreadsheets_batchUpdate (auth : jsval) (spreadsheetId : jsstr)
                                  (requests : list Sheets.request)
| slides_presentations_create (auth : jsval) (title : jsstr)
| slides_presentations_get (auth : jsval) (presentationId : jsstr)
| slides_presentations_batchUpdate (auth : jsval) (presentationId : jsstr)
                                   (requests : list Layout.request).

(** What the handler reads from the value a call resolves to. *)
Definition reply_of (c : call) : Type :=
  match c with
  | htmlToDocx _ => bytes
  | fs_writeFileSync _ => unit
  | drive_files_create _ _ => jsstr            (* response.data.id *)
  | fs_unlinkSync => unit
  | docs_documents_get _ _ => list Docs.structuralElement
                                               (* doc.data.body.content *)
  | docs_documents_batchUpdate _ _ _ => unit
  | sheets_spreadsheets_create _ _ => jsstr    (* data.spreadsheetId *)
  | sheets_spreadsheets_values_update _ _ _ _ => unit
  | sheets_spreadsheets_batchUpdate _ _ _ => unit
  | slides_presentations_create _ _ => jsstr   (* data.presentationId *)
  | slides_presentations_get _ _ => list page  (* data.slides *)
  | slides_presentations_batchUpdate _ _ _ => unit
  end.

(** A handler: it ends with a value, or performs a call and goes on with
    what the call gave (a value, or the error it threw or rejected with). *)
Inductive prog (A : Type) : Type :=
| Ret (a : A)
| Vis (c : call) (k : result (reply_of c) -> prog A).

Arguments Ret {A} a.
Arguments Vis {A} c k.

Fixpoint bind {A B : Type} (m : prog A) (f : A -> prog B) : prog B :=
  match m with
  | Ret a => f a
  | Vis c k => Vis c (fun r => bind (k r) f)
  end.

(** Code inside [try { ... }]: a handler whose value may be a thrown
    error. *)
Definition M (A : Type) : Type := prog (result A).

Definition ret {A : Type} (a : A) : M A := Ret (inr a).

Definition throw {A : Type} (e : exn) : M A := Ret (inl e).

Definition bindM {A B : Type} (m : M A) (f : A -> M B) : M B :=
  bind m (fun r => match r with
                   | inl e => Ret (inl e)
                   | inr a => f a
                   end).

(** [await c] (or a synchronous call that may throw). *)
Definition perform (c : call) : M (reply_of c) := Vis c (fun r => Ret r).

(** A pure computation that may throw. *)
Definition lift {A : Type} (r : result A) : M A := Ret r.

(** [try { body } catch (error) { handler }] *)
Definition try_catch {A : Type} (body : M A) (handler : exn -> prog A)
  : prog A :=
  bind body (fun r => match r with
                      | inl e => handler e
                      | inr a => Ret a
                      end).

(** A call together with what it gave. *)
Record event : Type := Event {
  ev_call : call;
  ev_reply : result (reply_of ev_call)
}.

(** The outside world: what each call gives, knowing what happened so
    far. *)
Definition oracle : Type :=
  forall (history : list event) (c : call), result (reply_of c).

(** Run a handler against the outside world; the result is the list of
    calls it made, in order and with their outcomes, and its value. *)
Fixpoint run {A : Type} (o : oracle) (history : list event) (p : prog A)
  : list event * A :=
  match p with
  | Ret a => (history, a)
  | Vis c k =>
      let r := o history c in
      run o (history ++ [Event c r]) (k r)
  end.

(** The [documents.get] probes of a trace, with what they gave. *)
Definition docs_probe (e : event)
  : option (jsstr * result (list Docs.structuralElement)) :=
  match e with
  | Event c r =>
      match c return result (reply_of c)
                     -> option (jsstr * result (list Docs.structuralElement))
      with
      | docs_documents_get _ id => fun r => Some (id, r)
      | _ => fun _ => None
      end r
  end.

(** The [documents.batchUpdate] calls of a trace. *)
Definition docs_update (e : event) : option (jsstr * list Docs.request) :=
  match ev_call e with
  | docs_documents_batchUpdate _ id reqs => Some (id, reqs)
  | _ => None
  end.

Fixpoint filter_map {A B : Type} (f : A -> option B) (l : list A) : list B :=
  match l with
  | [] => []
  | x :: l' =>
      match f x with
      | Some y => y :: filter_map f l'
      | None => filter_map f l'
      end
  end.

End Io.
Import Io.

Declare Scope handler_scope.
Delimit Scope handler_scope with handler.
Notation "x <- m ;; k" := (bindM m (fun x => k))
  (at level 61, m at next level, right associativity) : handler_scope.
Notation "m ;;; k" := (bindM m (fun _ => k))
  (at level 61, right associativity) : handler_scope.

(* ================================================================== *)
(** ** The four POST handlers *)
(* ================================================================== *)

Module Server.

(** The libraries and the engine the handlers run on, which are not part
    of the repository. *)
Record runtime : Type := {
  (** [Buffer.from(v, "base64").toString("utf8")] *)
  decode_base64_utf8 : jsval -> result jsstr;
  (** [new JSDOM(html).window.document] *)
  JSDOM : jsstr -> document;
  (** [parseDocument(html)] of htmlparser2: the top-level nodes, elements
      carrying their lower-case name *)
  parseDocument : jsstr -> list node;
  (** [selectAll("tr", undefined)] of css-select *)
  selectAll_undefined : result (list node);
  (** message of the TypeError for calling [trim] on a non-string *)
  msg_trim_not_a_function : jsstr;
  (** message of the TypeError for reading a property of [undefined] *)
  msg_property_of_undefined : jsstr -> jsstr;
  (** message of the TypeError for destructuring [req.body] when it is
      [undefined], naming the first property of the pattern *)
  msg_cannot_destructure : jsstr -> jsstr
}.

(** The response sent: [res.status(s).json({error})] or [res.json({url})]. *)
Inductive response_body : Type :=
| error_body (error : jsstr)
| url_body (url : jsstr).

Record response : Type := { status : Z; json : response_body }.

(** The character class [[\u0590-\u05FF\u0600-\u06FF]] on one code unit. *)
Definition in_hebrew_or_arabic (c : N) : bool :=
  ((1424 <=? c) && (c <=? 1535) || (1536 <=? c) && (c <=? 1791))%N.

(** [/[\u0590-\u05FF\u0600-\u06FF]/.test(html)] *)
Definition regex_test_hebrew_or_arabic (html : jsstr) : bool :=
  existsb in_hebrew_or_arabic html.

(** [findAll] of domutils, as css-select uses it: the elements of the
    subtree whose name satisfies [p], in document order. *)
Fixpoint findAll (p : string -> bool) (n : node) : list node :=
  match n with
  | ElementNode t kids =>
      (if p t then [n] else []) ++ flat_map (findAll p) kids
  | _ => []
  end.

(** [selectAll(query, context)] for a single context node with child
    nodes [kids]: the matching descendants of the context. *)
Definition selectAll (p : string -> bool) (kids : list node) : list node :=
  flat_map (findAll p) kids.

Definition childNodes_of (n : node) : list node :=
  match n with ElementNode _ kids => kids | _ => [] end.

(** [arr.map((x, i) => f x i)] *)
Fixpoint map_indexed {A B : Type} (f : A -> nat -> B) (i : nat) (l : list A)
  : list B :=
  match l with
  | [] => []
  | x :: l' => f x i :: map_indexed f (S i) l'
  end.

Definition headerStyle : Sheets.request :=
  Sheets.repeatCell
    {| Sheets.sheetId := 0; Sheets.startRowIndex := 0;
       Sheets.endRowIndex := 1 |}
    {| Sheets.backgroundColor :=
         {| Sheets.red := 25; Sheets.green := 32; Sheets.blue := 71 |};
       Sheets.horizontalAlignment := Some (lit "LEFT");
       Sheets.textFormat :=
         {| Sheets.foregroundColor :=
              Some {| Sheets.red := 100; Sheets.green := 100;
                      Sheets.blue := 100 |};
            Sheets.fontSize := 12;
            Sheets.bold := Some true |} |}
    (lit "userEnteredFormat(backgroundColor,textFormat,horizontalAlignment)").

(** The callback of [values.slice(1).map((_, i) => ...)]. *)
Definition bodyStyle (row : list jsstr) (i : nat) : Sheets.request :=
  Sheets.repeatCell
    {| Sheets.sheetId := 0; Sheets.startRowIndex := i + 1;
       Sheets.endRowIndex := i + 2 |}
    {| Sheets.backgroundColor :=
         if Nat.eqb (i mod 2) 0
         then {| Sheets.red := 100; Sheets.green := 100;
                 Sheets.blue := 100 |}
         else {| Sheets.red := 98; Sheets.green := 98; Sheets.blue := 98 |};
       Sheets.horizontalAlignment := None;
       Sheets.textFormat :=
         {| Sheets.foregroundColor := None;
            Sheets.fontSize := 11;
            Sheets.bold := None |} |}
    (lit "userEnteredFormat(backgroundColor,textFormat.fontSize)").

Section Handlers.

Variable rt : runtime.

Local Open Scope handler_scope.

Definition respond (s : Z) (b : response_body) : M response :=
  ret {| status := s; json := b |}.

(** [catch (error) { res.status(500).json({ error: error.message }) }] *)
Definition on_error (e : exn) : prog response :=
  Ret {| status := 500; json := error_body e |}.

(** [const { first, ... } = req.body]: destructuring [undefined] throws. *)
Definition destructure (first : string) (req_body : option Req.body)
  : M Req.body :=
  match req_body with
  | Some body => ret body
  | None => throw (msg_cannot_destructure rt (lit first))
  end.

(** POST /upload-doc *)
Definition upload_doc (req_body : option Req.body) : prog response :=
  try_catch
    (body <- destructure "html_base64" req_body ;;
     let html_base64 := Req.html_base64 body in
     let access_token := Req.access_token body in
     let file_name := Req.file_name body in
     if negb (truthy html_base64) || negb (truthy access_token)
        || negb (truthy file_name)
     then respond 400 (error_body (lit "Missing required fields."))
     else
       html <- lift (decode_base64_utf8 rt html_base64) ;;
       let isArabic := regex_test_hebrew_or_arabic html in
       docxBuffer <- perform (htmlToDocx html) ;;
       perform (fs_writeFileSync docxBuffer) ;;;
       dcoument_ID <- perform (drive_files_create access_token file_name) ;;
       perform fs_unlinkSync ;;;
       content <- perform (docs_documents_get access_token dcoument_ID) ;;
       endIndex <-
         match nth_error content (List.length content - 1) with
         | Some el => ret (Docs.se_endIndex el)
         | None => throw (msg_property_of_undefined rt (lit "endIndex"))
         end ;;
       perform (docs_documents_batchUpdate access_token dcoument_ID
                  [ Docs.updateParagraphStyle
                      {| Docs.startIndex := 1; Docs.endIndex := endIndex |}
                      (if isArabic then Docs.RIGHT_TO_LEFT
                       else Docs.LEFT_TO_RIGHT)
                      (lit "direction") ]) ;;;
       respond 200
         (url_body (lit "https://docs.google.com/document/d/"
                    ++ dcoument_ID ++ lit "/edit")))
    on_error.

(** POST /create-styled-sheet *)
Definition create_styled_sheet (req_body : option Req.body)
  : prog response :=
  try_catch
    (body <- destructure "access_token" req_body ;;
     let access_token := Req.access_token body in
     let html_base64 := Req.html_base64 body in
     let title := match Req.title body with
                  | JUndefined => JString (lit "Styled Sheet")
                  | t => t
                  end in
     if negb (truthy access_token) || negb (truthy html_base64)
     then respond 400
            (error_body (lit "Missing 'access_token' or 'html_base64'"))
     else
       html <- lift (decode_base64_utf8 rt html_base64) ;;
       let dom := parseDocument rt html in
       rows <-
         match selectAll (String.eqb "table") dom with
         | table :: _ => ret (selectAll (String.eqb "tr") (childNodes_of table))
         | [] => lift (selectAll_undefined rt)
         end ;;
       let values :=
         map (fun row =>
                map (fun cell => trim (textContent cell))
                    (selectAll (fun t => String.eqb "td" t || String.eqb "th" t)
                               (childNodes_of row)))
             rows in
       spreadsheetId <- perform (sheets_spreadsheets_create access_token title) ;;
       perform (sheets_spreadsheets_values_update access_token spreadsheetId
                  (lit "Sheet1!A1") values) ;;;
       let bodyStyles := map_indexed bodyStyle 0 (tl values) in
       perform (sheets_spreadsheets_batchUpdate access_token spreadsheetId
                  (headerStyle :: bodyStyles)) ;;;
       respond 200
         (url_body (lit "https://docs.google.com/spreadsheets/d/"
                    ++ spreadsheetId ++ lit "/edit")))
    on_error.

(** [file_name && file_name.trim() ? file_name : "My Presentation"] *)
Definition presentationTitle (file_name : jsval) : result jsstr :=
  if truthy file_name then
    match file_name with
    | JString s => inr (if nonempty (trim s) then s
                        else lit "My Presentation")
    | _ => inl (msg_trim_not_a_function rt)
    end
  else inr (lit "My Presentation").

(** What the two slide endpoints share once [slidesData] is known to be
    non-empty: create the presentation, delete its default slide, submit
    [slideRequests] as one batch. *)
Definition populate (access_token file_name : jsval)
           (slideRequests : list Layout.request) : M response :=
  title <- lift (presentationTitle file_name) ;;
  presentationId <- perform (slides_presentations_create access_token title) ;;
  slides <- perform (slides_presentations_get access_token presentationId) ;;
  defaultSlideId <-
    match slides with
    | p :: _ => ret (page_objectId p)
    | [] => throw (msg_property_of_undefined rt (lit "objectId"))
    end ;;
  perform (slides_presentations_batchUpdate access_token presentationId
             [deleteObject defaultSlideId]) ;;;
  perform (slides_presentations_batchUpdate access_token presentationId
             slideRequests) ;;;
  respond 200
    (url_body (lit "https://docs.google.com/presentation/d/"
               ++ presentationId ++ lit "/edit")).

(** POST /create-slides *)
Definition create_slides (req_body : option Req.body) : prog response :=
  try_catch
    (body <- destructure "access_token" req_body ;;
     let access_token := Req.access_token body in
     let html_base64 := Req.html_base64 body in
     let file_name := Req.file_name body in
     if negb (truthy access_token) || negb (truthy html_base64)
     then respond 400
            (error_body (lit "Missing 'access_token' or 'html_base64'"))
     else
       htmlContent <- lift (decode_base64_utf8 rt html_base64) ;;
       let slidesData := extractSlidesFromHtml (JSDOM rt htmlContent) in
       if Nat.eqb (List.length slidesData) 0
       then respond 400 (error_body (lit "No valid slides found in HTML."))
       else populate access_token file_name
                     (slideRequests_create_slides slidesData))
    on_error.

(** POST /create-slides-show *)
Definition create_slides_show (req_body : option Req.body)
  : prog response :=
  try_catch
    (body <- destructure "access_token" req_body ;;
     let access_token := Req.access_token body in
     let html_base64 := Req.html_base64 body in
     let file_name := Req.file_name body in
     if negb (truthy access_token) || negb (truthy html_base64)
     then respond 400
            (error_body (lit "Missing 'access_token' or 'html_base64'"))
     else
       htmlContent <- lift (decode_base64_utf8 rt html_base64) ;;
       let slidesData :=
         extractSlidesFromHtml_SlideShow (JSDOM rt htmlContent) in
       if Nat.eqb (List.length slidesData) 0
       then respond 400 (error_body (lit "No valid slides found in HTML."))
       else populate access_token file_name
                     (slideRequests_create_slides_show slidesData))
    on_error.

End Handlers.

(** The response and the calls of a handler run against [o]. *)
Definition serve (o : oracle) (p : prog response) : list event * response :=
  run o [] p.

End Server.
Import Server.

(* ================================================================== *)
(** ** The specification's reading of the components *)
(* ================================================================== *)

Module Spec.

(** The non-empty normalised texts of the elements up to the next title
    boundary. *)
Fixpoint texts_until_boundary (els : list node) : list jsstr :=
  match els with
  | [] => []
  | el :: rest =>
      if is_title_boundary el then []
      else let text := normalize (textContent el) in
           if nonempty text then text :: texts_until_boundary rest
           else texts_until_boundary rest
  end.

(** The text content of an element, trimmed at both ends only. *)
Definition trimmed_text (el : node) : jsstr := trim (textContent el).

(** The text content of an element, normalised: white-space runs
    collapsed to one space, then trimmed. *)
Definition normalized_text (el : node) : jsstr := normalize (textContent el).

(** Title-delimited segmentation, section 4.1: every title boundary opens
    a slide whose title is [title_of] the boundary element and whose
    description is the texts collected up to the next boundary, joined by
    [sep]; what precedes the first boundary is dropped. *)
Fixpoint segments (title_of : node -> jsstr) (sep : jsstr) (els : list node)
  : list slide :=
  match els with
  | [] => []
  | el :: rest =>
      if is_title_boundary el
      then {| title := title_of el;
              description := join sep (texts_until_boundary rest) |}
             :: segments title_of sep rest
      else segments title_of sep rest
  end.

(** The following sibling elements up to but excluding the next
    second-level heading. *)
Fixpoint siblings_until_h2 (siblings : list node) : list node :=
  match siblings with
  | [] => []
  | el :: rest =>
      if has_tag "H2" el then [] else el :: siblings_until_h2 rest
  end.

(** Heading-delimited description, section 4.2: each sibling's text
    content plus a line break, concatenated, the whole trimmed. *)
Definition description_after (siblings : list node) : jsstr :=
  trim (List.concat (map (fun el => textContent el ++ nl)
                    (siblings_until_h2 (children siblings)))).

(** Two layout commands that are the same, or are the creation of the same
    description text box placed at [y1], respectively [y2], points from
    the top. *)
Definition same_but_description_offset (y1 y2 : Z) (a b : Layout.request)
  : Prop :=
  a = b
  \/ exists id shapeType ep,
       starts_with (lit "desc_") id = true
       /\ a = createShape id shapeType (set_translateY y1 ep)
       /\ b = createShape id shapeType (set_translateY y2 ep).

(** A code point of the Hebrew block, U+0590 to U+05FF. *)
Definition is_hebrew (cp : N) : Prop := (0x0590 <= cp <= 0x05FF)%N.

(** A code point of the Arabic block, U+0600 to U+06FF. *)
Definition is_arabic (cp : N) : Prop := (0x0600 <= cp <= 0x06FF)%N.

(** Directionality, section 4.5. *)
Definition has_hebrew_or_arabic (html : jsstr) : Prop :=
  exists cp, In cp (codePoints html) /\ (is_hebrew cp \/ is_arabic cp).

(** The style update of POST /upload-doc for [html] and the [content] the
    probe read gave: one paragraph-style update from index 1 to the end
    index of the last structural element, right-to-left when [html] has a
    Hebrew or Arabic code point and left-to-right otherwise. *)
Definition direction_update (html : jsstr)
           (content : list Docs.structuralElement) (req : Docs.request)
  : Prop :=
  exists front el dir,
    content = front ++ [el]
    /\ req = Docs.updateParagraphStyle
               {| Docs.startIndex := 1;
                  Docs.endIndex := Docs.se_endIndex el |}
               dir (lit "direction")
    /\ (has_hebrew_or_arabic html -> dir = Docs.RIGHT_TO_LEFT)
    /\ (~ has_hebrew_or_arabic html -> dir = Docs.LEFT_TO_RIGHT).

(** The POST endpoints and their required fields, section 6. *)
Inductive post : Type :=
| POST_upload_doc
| POST_create_styled_sheet
| POST_create_slides
| POST_create_slides_show.

Definition required (ep : post) : list (Req.body -> jsval) :=
  match ep with
  | POST_upload_doc => [Req.html_base64; Req.access_token; Req.file_name]
  | POST_create_styled_sheet => [Req.access_token; Req.html_base64]
  | POST_create_slides => [Req.access_token; Req.html_base64]
  | POST_create_slides_show => [Req.access_token; Req.html_base64]
  end.

(** The first property named by the handler's destructuring pattern. *)
Definition first_destructured (ep : post) : string :=
  match ep with
  | POST_upload_doc => "html_base64"
  | _ => "access_token"
  end.

(** A field the request leaves out, or gives a falsy value. *)
Definition missing (v : jsval) : Prop := truthy v = false.

Definition omits_required (ep : post) (body : Req.body) : Prop :=
  exists field, In field (required ep) /\ missing (field body).

Definition handler (rt : runtime) (ep : post)
  : option Req.body -> prog response :=
  match ep with
  | POST_upload_doc => upload_doc rt
  | POST_create_styled_sheet => create_styled_sheet rt
  | POST_create_slides => create_slides rt
  | POST_create_slides_show => create_slides_show rt
  end.

(** The 400 response of the missing-field check of each endpoint. *)
Definition missing_fields_response (ep : post) : response :=
  {| status := 400;
     json := error_body
               match ep with
               | POST_upload_doc => lit "Missing required fields."
               | _ => lit "Missing 'access_token' or 'html_base64'"
               end |}.

(** The 400 response of the two slide endpoints when no slide is found. *)
Definition no_valid_slides : response :=
  {| status := 400;
     json := error_body (lit "No valid slides found in HTML.") |}.

End Spec.

(* ================================================================== *)
(** ** Sample documents and a sample outside world *)
(* ================================================================== *)

Module Sample.

(** [<p><strong>s</strong></p>] *)
Definition bold_paragraph (s : string) : node :=
  ElementNode "P" [ElementNode "STRONG" [TextNode (lit s)]].

(** [<p>s</p>] *)
Definition paragraph (s : string) : node :=
  ElementNode "P" [TextNode (lit s)].

(** [<h2>s</h2>] *)
Definition heading2 (s : string) : node :=
  ElementNode "H2" [TextNode (lit s)].

Definition doc_of (kids : list node) : document :=
  {| head := []; body := kids |}.

(** A runtime whose parser gives [d] and whose decoder gives [html]. *)
Definition runtime_for (html : jsstr) (d : document) : runtime :=
  {| decode_base64_utf8 := fun _ => inr html;
     JSDOM := fun _ => d;
     parseDocument := fun _ => body d;
     selectAll_undefined := inl (lit "TypeError");
     msg_trim_not_a_function := lit "file_name.trim is not a function";
     msg_property_of_undefined := fun p =>
       lit "Cannot read properties of undefined (reading '" ++ p ++ lit "')";
     msg_cannot_destructure := fun p =>
       lit "Cannot destructure property '" ++ p
       ++ lit "' of 'req.body' as it is undefined." |}.

(** An outside world where every call succeeds. *)
Definition all_ok : oracle :=
  fun _ c =>
    match c return result (reply_of c) with
    | htmlToDocx _ => inr [80; 75]%N
    | fs_writeFileSync _ => inr tt
    | drive_files_create _ _ => inr (lit "doc1")
    | fs_unlinkSync => inr tt
    | docs_documents_get _ _ =>
        inr [ {| Docs.se_endIndex := 1 |}; {| Docs.se_endIndex := 42 |} ]
    | docs_documents_batchUpdate _ _ _ => inr tt
    | sheets_spreadsheets_create _ _ => inr (lit "sheet1")
    | sheets_spreadsheets_values_update _ _ _ _ => inr tt
    | sheets_spreadsheets_batchUpdate _ _ _ => inr tt
    | slides_presentations_create _ _ => inr (lit "pres1")
    | slides_presentations_get _ _ => inr [ {| page_objectId := lit "p" |} ]
    | slides_presentations_batchUpdate _ _ _ => inr tt
    end.

(** [<p><strong>Title</strong></p><p>text</p>]: no [h2], one bold-only
    paragraph. *)
Definition bold_html : jsstr :=
  lit "<p><strong>Title</strong></p><p>text</p>".

Definition bold_doc : document :=
  doc_of [bold_paragraph "Title"; paragraph "text"].

(** A paragraph holding the Hebrew letter alef, U+05D0. *)
Definition hebrew_html : jsstr := lit "<p>" ++ [0x05D0%N] ++ lit "</p>".

(** An outside world where the Drive upload is rejected and every other
    call succeeds. *)
Definition upload_rejected : oracle :=
  fun history c =>
    match c return result (reply_of c) with
    | drive_files_create _ _ => inl (lit "Insufficient Permission")
    | c' => all_ok history c'
    end.

(** A body with the three fields present, carrying [bold_html]. *)
Definition full_body : Req.body :=
  {| Req.html_base64 := JString (lit "PHA+PHN0cm9uZz5UaXRsZTwvc3Ryb25nPjwvcD48cD50ZXh0PC9wPg==");
     Req.access_token := JString (lit "token");
     Req.file_name := JString (lit "deck");
     Req.title := JUndefined |}.

(** A body with the three fields present, carrying [hebrew_html]. *)
Definition hebrew_body : Req.body :=
  {| Req.html_base64 := JString (lit "PHA+15A8L3A+");
     Req.access_token := JString (lit "token");
     Req.file_name := JString (lit "deck");
     Req.title := JUndefined |}.

(** [<p>text</p>]: neither an [h2] nor a bold-only paragraph. *)
Definition plain_html : jsstr := lit "<p>text</p>".

Definition plain_doc : document := doc_of [paragraph "text"].

(** A body with the three fields present, carrying [plain_html]. *)
Definition plain_body : Req.body :=
  {| Req.html_base64 := JString (lit "PHA+dGV4dDwvcD4=");
     Req.access_token := JString (lit "token");
     Req.file_name := JString (lit "deck");
     Req.title := JUndefined |}.

(** A body that omits [access_token]. *)
Definition body_without_token : Req.body :=
  {| Req.html_base64 := JString (lit "PHA+PHN0cm9uZz5UaXRsZTwvc3Ryb25nPjwvcD48cD50ZXh0PC9wPg==");
     Req.access_token := JUndefined;
     Req.file_name := JString (lit "deck");
     Req.title := JUndefined |}.

(** A table with a header row and two data rows, as htmlparser2 gives
    it (lower-case names). *)
Definition table_html : jsstr :=
  lit "<table><tr><th>Name</th><th> Age </th></tr><tr><td>Ann</td><td>7</td></tr><tr><td>Bob</td><td>9</td></tr></table>".

Definition table_dom : list node :=
  [ ElementNode "table"
      [ ElementNode "tr" [ ElementNode "th" [TextNode (lit "Name")];
                           ElementNode "th" [TextNode (lit " Age ")] ];
        ElementNode "tr" [ ElementNode "td" [TextNode (lit "Ann")];
                           ElementNode "td" [TextNode (lit "7")] ];
        ElementNode "tr" [ ElementNode "td" [TextNode (lit "Bob")];
                           ElementNode "td" [TextNode (lit "9")] ] ] ].

(** A body carrying [table_html], without a title. *)
Definition table_body : Req.body :=
  {| Req.html_base64 := JString (lit "PHRhYmxlPjx0cj48dGg+TmFtZTwvdGg+PHRoPiBBZ2UgPC90aD48L3RyPjx0cj48dGQ+QW5uPC90ZD48dGQ+NzwvdGQ+PC90cj48dHI+PHRkPkJvYjwvdGQ+PHRkPjk8L3RkPjwvdHI+PC90YWJsZT4=");
     Req.access_token := JString (lit "token");
     Req.file_name := JUndefined;
     Req.title := JUndefined |}.

(** A runtime whose decoder accepts strings only, as [Buffer.from] does. *)
Definition strict_runtime (html : jsstr) (d : document) : runtime :=
  {| decode_base64_utf8 := fun v =>
       match v with
       | JString _ => inr html
       | _ => inl (lit "The first argument must be of type string or an instance of Buffer, ArrayBuffer, or Array or an Array-like Object.")
       end;
     JSDOM := fun _ => d;
     parseDocument := fun _ => body d;
     selectAll_undefined := inl (lit "TypeError");
     msg_trim_not_a_function := lit "file_name.trim is not a function";
     msg_property_of_undefined := fun p =>
       lit "Cannot read properties of undefined (reading '" ++ p ++ lit "')";
     msg_cannot_destructure := fun p =>
       lit "Cannot destructure property '" ++ p
       ++ lit "' of 'req.body' as it is undefined." |}.

(** A body whose [html_base64] is the number 5. *)
Definition number_body : Req.body :=
  {| Req.html_base64 := JNumber 5;
     Req.access_token := JString (lit "token");
     Req.file_name := JString (lit "deck");
     Req.title := JUndefined |}.

End Sample.

(* ================================================================== *)
(** ** Reading commands, strings and traces *)
(* ================================================================== *)

Module Observe.

(** The identifiers a command sequence creates, in order. *)
Definition created_ids (reqs : list Layout.request) : list jsstr :=
  filter_map creates reqs.

(** The text an insert-text command puts into a box whose identifier
    starts with [prefix]. *)
Definition inserted_into (prefix : jsstr) (c : Layout.request)
  : option jsstr :=
  match c with
  | insertText id text _ =>
      if starts_with prefix id then Some text else None
  | _ => None
  end.

(** The prefixes of the identifiers of one slide's objects: the slide,
    its background, logo, footer, title box and description box. *)
Definition id_prefixes : list jsstr :=
  [ lit "slide_"; lit "bg_slide_"; lit "logo_slide_"; lit "footer_slide_";
    lit "title_slide_"; lit "desc_slide_" ].

(** The code units of a string that are not white space. *)
Definition visible (s : jsstr) : jsstr :=
  filter (fun c => negb (is_ws c)) s.

(** The error a call of the trace failed with, if it failed. *)
Definition failure (e : event) : option exn :=
  match ev_reply e with
  | inl message => Some message
  | inr _ => None
  end.

(** Only the last call of the trace may have failed, and then the answer
    is 500 with its message. *)
Fixpoint fails_only_last (trace : list event) (resp : response) : Prop :=
  match trace with
  | [] => True
  | e :: rest =>
      match failure e with
      | Some message =>
          rest = [] /\ resp = {| status := 500; json := error_body message |}
      | None => fails_only_last rest resp
      end
  end.

(** The calls of a trace, without their outcomes. *)
Definition calls (trace : list event) : list call := map ev_call trace.

(** The [values] grid POST /create-styled-sheet computes from the rows of
    the table: per row, the trimmed text of each [td] or [th] below it. *)
Definition table_values (rows : list node) : list (list jsstr) :=
  map (fun row =>
         map (fun cell => trim (textContent cell))
             (selectAll (fun t => String.eqb "td" t || String.eqb "th" t)
                        (childNodes_of row)))
      rows.

(** The rows POST /create-styled-sheet reads from a parsed document that
    has a table: the [tr] elements below the first [table]. *)
Definition table_rows (dom : list node) : option (list node) :=
  match selectAll (String.eqb "table") dom with
  | table :: _ => Some (selectAll (String.eqb "tr") (childNodes_of table))
  | [] => None
  end.

(** The row range and background of a [repeatCell] request. *)
Definition row_shade (r : Sheets.request) : nat * nat * Sheets.color :=
  match r with
  | Sheets.repeatCell range format _ =>
      (Sheets.startRowIndex range, Sheets.endRowIndex range,
       Sheets.backgroundColor format)
  end.

Definition white : Sheets.color :=
  {| Sheets.red := 100; Sheets.green := 100; Sheets.blue := 100 |}.

Definition light_grey : Sheets.color :=
  {| Sheets.red := 98; Sheets.green := 98; Sheets.blue := 98 |}.

(** The handler of a slide endpoint and the segmenter it calls. *)
Definition slide_handler (rt : runtime) (ep : endpoint)
  : option Req.body -> prog response :=
  match ep with
  | CreateSlides => create_slides rt
  | CreateSlidesShow => create_slides_show rt
  end.

Definition segmenter (ep : endpoint) : document -> list slide :=
  match ep with
  | CreateSlides => extractSlidesFromHtml
  | CreateSlidesShow => extractSlidesFromHtml_SlideShow
  end.

(** The link of a created presentation. *)
Definition presentation_url (presentationId : jsstr) : jsstr :=
  lit "https://docs.google.com/presentation/d/" ++ presentationId
  ++ lit "/edit".

End Observe.

(* ================================================================== *)
(** * Properties *)
(* ================================================================== *)

(** ** Running the code on small inputs *)

Example of_nat_12 : of_nat 12 = lit "12".
Proof. reflexivity. Qed.

Example trim_example :
  trim (lit "  a  b " ++ nl) = lit "a  b"
  /\ normalize (lit "  a  b " ++ nl) = lit "a b".
Proof. split; reflexivity. Qed.

(** Content before the first bold-only paragraph is dropped. *)
Example leading_content_dropped :
  extractSlidesFromHtml
    (Sample.doc_of [ Sample.paragraph "intro"; Sample.bold_paragraph "T";
                     Sample.paragraph "x" ])
  = [ {| title := lit "T"; description := lit "x" |} ].
Proof. reflexivity. Qed.

(** A paragraph mixing bold and plain text is not a title boundary. *)
Example mixed_paragraph_not_boundary :
  is_title_boundary
    (ElementNode "P" [ ElementNode "STRONG" [TextNode (lit "Bold")];
                       TextNode (lit " and plain") ])
  = false.
Proof. reflexivity. Qed.

(** The first commands of the layout of one slide. *)
Example first_slide_commands :
  firstn 2 (slideRequests_create_slides
              [ {| title := lit "T"; description := lit "d" |} ])
  = [ createSlide (lit "slide_1") (lit "BLANK");
      createImage (lit "bg_slide_1") BACKGROUND_IMAGE_URL
        {| pageObjectId := lit "slide_1";
           size := {| height := PT 405; width := PT 720 |};
           transform := {| scaleX := 1; scaleY := 1;
                           translateX := 0; translateY := 0;
                           transform_unit := lit "PT" |} |} ].
Proof. reflexivity. Qed.

(** ** The layout projection *)

Section ForEachPush.

Context {A B : Type} (f : A -> nat -> list B).

Lemma forEach_push_out (l : list A) :
  forall index out,
    forEach_push f l index out = out ++ forEach_push f l index [].
Proof.
  induction l as [|x l IH]; intros index out; simpl.
  - now rewrite app_nil_r.
  - rewrite (IH (S index) (out ++ f x index)), (IH (S index) (f x index)).
    now rewrite app_assoc.
Qed.

Lemma forEach_push_cons (x : A) (l : list A) (index : nat) :
  forEach_push f (x :: l) index [] = f x index ++ forEach_push f l (S index) [].
Proof. simpl. apply forEach_push_out. Qed.

(** A command is pushed iff some iteration of the loop pushes it. *)
Lemma in_forEach_push (l : list A) :
  forall index c,
    In c (forEach_push f l index []) <->
    exists k x, nth_error l k = Some x /\ In c (f x (index + k)).
Proof.
  induction l as [|x l IH]; intros index c.
  - simpl. split; [intros [] | intros (k & y & H & _)].
    now destruct k.
  - rewrite forEach_push_cons, in_app_iff, IH. split.
    + intros [H | (k & y & Hk & Hin)].
      * exists 0, x. rewrite Nat.add_0_r. now split.
      * exists (S k), y. split; [exact Hk|].
        now replace (index + S k) with (S index + k) by lia.
    + intros (k & y & Hk & Hin). destruct k as [|k]; simpl in Hk.
      * injection Hk as <-. rewrite Nat.add_0_r in Hin. now left.
      * right. exists k, y. split; [exact Hk|].
        now replace (S index + k) with (index + S k) by lia.
Qed.

End ForEachPush.

Lemma ordered_from_app (a b : list request) :
  forall seen,
    ordered_from seen a ->
    (forall seen', ordered_from seen' b) ->
    ordered_from seen (a ++ b).
Proof.
  induction a as [|c a IH]; intros seen Ha Hb; simpl.
  - apply Hb.
  - destruct Ha as [Hc Ha]. split; [exact Hc|]. now apply IH.
Qed.

Lemma ordered_from_sound (reqs : list request) :
  forall seen before c after id,
    ordered_from seen reqs ->
    reqs = before ++ c :: after ->
    In id (references c) ->
    In id seen \/ exists c', In c' before /\ creates c' = Some id.
Proof.
  induction reqs as [|r reqs IH]; intros seen before c after id Hord Heq Hin.
  - now destruct before.
  - destruct Hord as [Hr Hord]. destruct before as [|b before]; simpl in Heq.
    + injection Heq as -> ->. left. now apply Hr.
    + injection Heq as -> ->.
      destruct (IH _ before c after id Hord eq_refl Hin) as [H | (c' & H1 & H2)].
      * destruct (creates b) as [idb|] eqn:Eb.
        -- destruct H as [<- | H]; [|now left].
           right. exists b. split; [now left | exact Eb].
        -- now left.
      * right. exists c'. split; [now right | exact H2].
Qed.

(** The commands of one slide are self-contained: whatever exists already,
    each of them refers to objects created earlier in the same block. *)
Lemma callback_ordered (ep : endpoint) (s : slide) (index : nat) :
  forall seen, ordered_from seen (callback_of ep s index).
Proof.
  intros seen.
  destruct ep; unfold callback_of, create_slides_callback,
    create_slides_show_callback;
    generalize (lit "slide_" ++ of_nat (index + 1)); intros slideId;
    cbn [ordered_from references creates pageObjectId];
    repeat split; intros id Hin; cbn [In] in *;
    repeat (destruct Hin as [<- | Hin]); try contradiction; auto 20.
Qed.

Lemma slideRequests_of_forEach (ep : endpoint) (slidesData : list slide) :
  slideRequests_of ep slidesData
  = forEach_push (callback_of ep) slidesData 0 [].
Proof. now destruct ep. Qed.

Lemma forEach_callback_ordered (ep : endpoint) (l : list slide) :
  forall index seen,
    ordered_from seen (forEach_push (callback_of ep) l index []).
Proof.
  induction l as [|s l IH]; intros index seen.
  - exact I.
  - rewrite forEach_push_cons. apply ordered_from_app.
    + apply callback_ordered.
    + intros seen'. apply IH.
Qed.

Lemma forEach_callback_createSlide (ep : endpoint) (l : list slide) :
  forall index,
    List.length (filter is_createSlide
                   (forEach_push (callback_of ep) l index []))
    = List.length l.
Proof.
  induction l as [|s l IH]; intros index.
  - reflexivity.
  - rewrite forEach_push_cons, filter_app, length_app, IH.
    now destruct ep.
Qed.

Lemma contains_self (x : jsstr) : contains x x.
Proof. exists [], []. now rewrite app_nil_r. Qed.

Lemma contains_cons (x s : jsstr) (c : N) :
  contains x s -> contains x (c :: s).
Proof. intros (pre & post & ->). now exists (c :: pre), post. Qed.

(** Every shape or image a slide's callback creates is named after the
    slide's 1-based ordinal. *)
Lemma callback_ids (ep : endpoint) (s : slide) (index : nat) (c : request)
      (id : jsstr) :
  In c (callback_of ep s index) ->
  shape_or_image_id c = Some id ->
  contains (of_nat (index + 1)) id.
Proof.
  intros Hin Hid.
  destruct ep; unfold callback_of, create_slides_callback,
    create_slides_show_callback in Hin; cbn [In] in Hin;
    repeat (destruct Hin as [<- | Hin]); try contradiction;
    cbn [shape_or_image_id] in Hid; try discriminate;
    injection Hid as <-;
    repeat apply contains_cons; apply contains_self.
Qed.

(** C1. For a slide-record list of length N, the layout projection of
    POST /create-slides and of POST /create-slides-show emits exactly N
    slide-creation commands; the commands it emits are exactly those of
    the slides' callbacks, and the identifier of every shape or image
    created for the slide of 1-based ordinal [index + 1] contains the
    decimal digits of that ordinal; and every identifier a command refers
    to (the text box of insert-text and set-text-style, the parent slide
    of an image or shape) is created by a command that comes earlier in
    the emitted sequence. *)
Theorem layout_projection_sound (ep : endpoint) (slidesData : list slide) :
  let emitted := slideRequests_of ep slidesData in
  List.length (filter is_createSlide emitted) = List.length slidesData
  /\ (forall index s c,
        nth_error slidesData index = Some s ->
        In c (callback_of ep s index) ->
        In c emitted
        /\ forall id, shape_or_image_id c = Some id ->
                      contains (of_nat (index + 1)) id)
  /\ (forall c, In c emitted ->
        exists index s,
          nth_error slidesData index = Some s
          /\ In c (callback_of ep s index))
  /\ dependency_ordered emitted.
Proof.
  intros emitted. subst emitted. rewrite slideRequests_of_forEach.
  split; [apply forEach_callback_createSlide|].
  split; [|split].
  - intros index s c Hnth Hin. split.
    + apply in_forEach_push. now exists index, s.
    + intros id. now apply callback_ids with (ep := ep) (s := s).
  - intros c Hin. apply in_forEach_push in Hin.
    destruct Hin as (k & s & Hk & Hin). now exists k, s.
  - intros before c after id Heq Hin.
    destruct (ordered_from_sound [] before c after id
                (forEach_callback_ordered ep slidesData 0 []) Heq Hin)
      as [[] | H].
    exact H.
Qed.

Lemma forEach_push_Forall2 {A B : Type} (R : B -> B -> Prop)
      (f g : A -> nat -> list B) :
  (forall x index, Forall2 R (f x index) (g x index)) ->
  forall l index,
    Forall2 R (forEach_push f l index []) (forEach_push g l index []).
Proof.
  intros Hfg l. induction l as [|x l IH]; intros index.
  - constructor.
  - rewrite !forEach_push_cons. apply Forall2_app; [apply Hfg | apply IH].
Qed.

Lemma forEach_push_map {A B : Type} (h : B -> B) (f g : A -> nat -> list B) :
  (forall x index, g x index = map h (f x index)) ->
  forall l index,
    forEach_push g l index [] = map h (forEach_push f l index []).
Proof.
  intros Hfg l. induction l as [|x l IH]; intros index.
  - reflexivity.
  - now rewrite !forEach_push_cons, map_app, Hfg, IH.
Qed.

(** C9. For the same slide-record list the command sequences of
    POST /create-slides and POST /create-slides-show agree command by
    command, except that the creation of each description text box places
    it 70pt from the top in the former and 100pt in the latter: moving the
    description boxes of one sequence gives the other. *)
Theorem layouts_differ_in_description_offset (slidesData : list slide) :
  Forall2 (Spec.same_but_description_offset 70 100)
          (slideRequests_create_slides slidesData)
          (slideRequests_create_slides_show slidesData)
  /\ slideRequests_create_slides_show slidesData
     = map (place_description 100) (slideRequests_create_slides slidesData)
  /\ slideRequests_create_slides slidesData
     = map (place_description 70)
           (slideRequests_create_slides_show slidesData).
Proof.
  unfold slideRequests_create_slides, slideRequests_create_slides_show.
  split; [|split].
  - apply forEach_push_Forall2. intros s index.
    unfold create_slides_callback, create_slides_show_callback.
    repeat (apply Forall2_cons;
            [first [left; reflexivity | right]|]); [|apply Forall2_nil].
    match goal with
    | |- exists id st ep, _ /\ createShape ?i ?t ?e = _ /\ _ =>
        exists i, t, e
    end.
    repeat split.
  - apply forEach_push_map. reflexivity.
  - apply forEach_push_map. reflexivity.
Qed.

(** ** Strings: trimming *)

Lemma trimStart_head_ok (s : jsstr) : head_ok s -> trimStart s = s.
Proof. destruct s as [|c s]; simpl; [easy | now intros ->]. Qed.

Lemma trimStart_cases (s : jsstr) :
  trimStart s = [] \/ head_ok (trimStart s).
Proof.
  induction s as [|c s IH]; simpl; [now left|].
  destruct (is_ws c) eqn:E; [exact IH | right; exact E].
Qed.

Lemma trimStart_snoc (l : jsstr) (c : N) :
  is_ws c = false -> exists l', trimStart (l ++ [c]) = l' ++ [c].
Proof.
  intros Hc. induction l as [|a l IH]; simpl.
  - rewrite Hc. now exists [].
  - destruct (is_ws a); [exact IH | now exists (a :: l)].
Qed.

Lemma head_ok_app (s x : jsstr) : head_ok s -> head_ok (s ++ x).
Proof. now destruct s. Qed.

Lemma trim_trimmed (s : jsstr) : trimmed s -> trim s = s.
Proof.
  intros [H1 H2]. unfold trim, trimEnd.
  now rewrite (trimStart_head_ok _ H1), (trimStart_head_ok _ H2),
    rev_involutive.
Qed.

(** What [trim] returns is empty or has no white space at either end. *)
Lemma trim_result (s : jsstr) : trim s = [] \/ trimmed (trim s).
Proof.
  unfold trim, trimEnd.
  destruct (trimStart_cases s) as [-> | H]; [now left|].
  destruct (trimStart s) as [|c y]; [easy|]. simpl in H.
  right. cbn [rev].
  destruct (trimStart_snoc (rev y) c H) as (l' & E).
  split.
  - rewrite E, rev_app_distr. exact H.
  - rewrite rev_involutive.
    destruct (trimStart_cases (rev y ++ [c])) as [E0 | Hok]; [|exact Hok].
    rewrite E in E0. now destruct l'.
Qed.

Lemma join_trimmed (sep : jsstr) (l : list jsstr) :
  Forall trimmed l -> l <> [] -> trimmed (join sep l).
Proof.
  induction l as [|a l IH]; intros Hall Hne; [easy|].
  inversion Hall as [|? ? Ha Hl]; subst.
  destruct l as [|b l]; [exact Ha|].
  change (join sep (a :: b :: l)) with (a ++ sep ++ join sep (b :: l)).
  destruct (IH Hl ltac:(discriminate)) as [_ H2].
  split.
  - apply head_ok_app, Ha.
  - rewrite !rev_app_distr, <- app_assoc. now apply head_ok_app.
Qed.

Lemma trim_join (sep : jsstr) (l : list jsstr) :
  Forall trimmed l -> trim (join sep l) = join sep l.
Proof.
  intros Hall. destruct l as [|a l]; [reflexivity|].
  apply trim_trimmed, join_trimmed; [exact Hall | discriminate].
Qed.

Lemma normalize_trimmed (s : jsstr) :
  nonempty (normalize s) = true -> trimmed (normalize s).
Proof.
  unfold normalize. intros Hne.
  destruct (trim_result (collapse_ws s)) as [E | H]; [|exact H].
  now rewrite E in Hne.
Qed.

(** ** The title-delimited segmenter refines its specification *)

Section TitleDelimited.

Lemma set_description_last (done : list slide) (cur : slide) (d : jsstr) :
  set_description (List.length done) d (done ++ [cur])
  = done ++ [ {| title := title cur; description := d |} ].
Proof.
  induction done as [|s done IH]; simpl; [reflexivity | now rewrite IH].
Qed.

(** The loop while a slide is open: [lastSlide] refers to the last entry
    of [slides], whose description is still empty. *)
Lemma loop_open (els : list node) :
  forall done t buf,
    Forall trimmed buf ->
    flush (fold_left step els
             {| slides := done ++ [ {| title := t; description := [] |} ];
                lastSlide := Some (List.length done);
                buffer := buf |})
    = done
      ++ {| title := t;
            description := join (nl ++ nl) (buf ++ Spec.texts_until_boundary els) |}
      :: Spec.segments Spec.trimmed_text (nl ++ nl) els.
Proof.
  induction els as [|el els IH]; intros done t buf Hbuf.
  - cbn [fold_left Spec.texts_until_boundary Spec.segments].
    rewrite app_nil_r. unfold flush. cbn [lastSlide buffer slides].
    destruct buf as [|b buf]; [reflexivity|].
    unfold close_slide. cbn [lastSlide buffer slides].
    now rewrite set_description_last, trim_join.
  - cbn [fold_left Spec.texts_until_boundary Spec.segments].
    unfold step at 2. destruct (is_title_boundary el) eqn:Eb.
    + unfold close_slide. cbn [lastSlide buffer slides].
      rewrite set_description_last, (trim_join _ Hbuf). cbn [title].
      rewrite (IH _ _ [] (Forall_nil _)).
      now rewrite app_nil_r, <- app_assoc.
    + cbn [lastSlide buffer slides]. fold (normalize (textContent el)).
      destruct (nonempty (normalize (textContent el))) eqn:En.
      * rewrite IH.
        -- now rewrite <- app_assoc.
        -- apply Forall_app. split; [exact Hbuf|].
           constructor; [now apply normalize_trimmed | constructor].
      * now rewrite IH.
Qed.

(** The loop before the first title boundary: what is buffered is
    dropped. *)
Lemma loop_init (els : list node) :
  forall buf,
    flush (fold_left step els
             {| slides := []; lastSlide := None; buffer := buf |})
    = Spec.segments Spec.trimmed_text (nl ++ nl) els.
Proof.
  induction els as [|el els IH]; intros buf.
  - reflexivity.
  - cbn [fold_left Spec.segments].
    unfold step at 2. destruct (is_title_boundary el) eqn:Eb.
    + unfold close_slide. cbn [lastSlide buffer slides].
      now rewrite (loop_open els [] _ (Forall_nil _)).
    + cbn [lastSlide buffer slides]. apply IH.
Qed.

Lemma extract_refines_segments (d : document) :
  extractSlidesFromHtml d
  = filter keep (Spec.segments Spec.trimmed_text (nl ++ nl) (children (body d))).
Proof. unfold extractSlidesFromHtml, init. now rewrite loop_init. Qed.

Lemma segments_title (t1 t2 : node -> jsstr) (s1 s2 : jsstr)
      (els : list node) :
  map title (Spec.segments t1 s1 els)
  = map t1 (filter is_title_boundary els).
Proof.
  induction els as [|el els IH]; [reflexivity|].
  cbn [Spec.segments filter].
  destruct (is_title_boundary el); [cbn [map title]; now rewrite IH | exact IH].
Qed.

Lemma map_title_filter_keep (l : list slide) :
  map title (filter keep l) = filter nonempty (map title l).
Proof.
  induction l as [|s l IH]; [reflexivity|].
  cbn [filter map]. unfold keep at 1.
  destruct (nonempty (title s)); [cbn [map]; now rewrite IH | exact IH].
Qed.

End TitleDelimited.

Unset Implicit Arguments.

(** C2. A body whose element children are, in order, a bold-only paragraph
    with text "Title A", a paragraph "text1" that is not bold-only, a
    bold-only paragraph "Title B" and a paragraph "text2" that is not
    bold-only, is segmented by [extractSlidesFromHtml] into exactly
    [{title: "Title A", description: "text1"}] and
    [{title: "Title B", description: "text2"}]. *)
Theorem title_delimited_example (d : document) (t1 p1 t2 p2 : node) :
  children (body d) = [t1; p1; t2; p2] ->
  is_title_boundary t1 = true -> textContent t1 = lit "Title A" ->
  has_tag "P" p1 = true -> is_title_boundary p1 = false ->
  textContent p1 = lit "text1" ->
  is_title_boundary t2 = true -> textContent t2 = lit "Title B" ->
  has_tag "P" p2 = true -> is_title_boundary p2 = false ->
  textContent p2 = lit "text2" ->
  extractSlidesFromHtml d
  = [ {| title := lit "Title A"; description := lit "text1" |};
      {| title := lit "Title B"; description := lit "text2" |} ].
Proof.
  intros Hc Ht1 Tt1 _ Hp1 Tp1 Ht2 Tt2 _ Hp2 Tp2.
  unfold extractSlidesFromHtml. rewrite Hc.
  cbn [fold_left]. unfold step.
  rewrite Ht1, Hp1, Ht2, Hp2, Tt1, Tp1, Tt2, Tp2.
  reflexivity.
Qed.

Lemma title_delimited_example_witness :
  extractSlidesFromHtml
    (Sample.doc_of [ Sample.bold_paragraph "Title A";
                     Sample.paragraph "text1";
                     Sample.bold_paragraph "Title B";
                     Sample.paragraph "text2" ])
  = [ {| title := lit "Title A"; description := lit "text1" |};
      {| title := lit "Title B"; description := lit "text2" |} ].
Proof.
  apply (title_delimited_example
           (Sample.doc_of [ Sample.bold_paragraph "Title A";
                            Sample.paragraph "text1";
                            Sample.bold_paragraph "Title B";
                            Sample.paragraph "text2" ])
           (Sample.bold_paragraph "Title A") (Sample.paragraph "text1")
           (Sample.bold_paragraph "Title B") (Sample.paragraph "text2"));
    reflexivity.
Defined.

(** C3, as stated, fails: with two content paragraphs "a" and "b" buffered
    under a title, the description is not "a\nb"; the two texts are
    separated by two line feeds. *)
Lemma description_single_newline_fails :
  let d := Sample.doc_of [ Sample.bold_paragraph "T";
                           Sample.paragraph "a";
                           Sample.paragraph "b" ] in
  map description (extractSlidesFromHtml d)
  = [ lit "a" ++ nl ++ nl ++ lit "b" ]
  /\ map description (extractSlidesFromHtml d) <> [ lit "a" ++ nl ++ lit "b" ].
Proof. split; [reflexivity | discriminate]. Qed.

(** C3, amended. In the title-delimited segmenter the description of a
    slide is the non-empty normalised texts buffered between its title
    boundary and the next one (or the end of the body), joined by two line
    feeds, that is separated by a blank line: the segmenter returns the
    slides of the specification's segmentation with that separator that
    have a non-empty title. In particular two buffered paragraphs "a" and
    "b" give the description "a\n\nb". *)
Theorem description_joined_by_blank_line (d : document) :
  extractSlidesFromHtml d
  = filter keep
      (Spec.segments Spec.trimmed_text (nl ++ nl) (children (body d)))
  /\ extractSlidesFromHtml
       (Sample.doc_of [ Sample.bold_paragraph "T";
                        Sample.paragraph "a";
                        Sample.paragraph "b" ])
     = [ {| title := lit "T";
            description := lit "a" ++ nl ++ nl ++ lit "b" |} ].
Proof. split; [apply extract_refines_segments | reflexivity]. Qed.

(** C8, as stated, fails: a bold-only paragraph whose text has a run of
    three spaces is a title boundary, and the title of its slide keeps the
    run, whereas its normalised text has a single space. *)
Lemma title_not_normalized :
  let el := Sample.bold_paragraph "Title   A" in
  is_title_boundary el = true
  /\ map title (extractSlidesFromHtml (Sample.doc_of [el]))
     = [ lit "Title   A" ]
  /\ Spec.normalized_text el = lit "Title A"
  /\ map title (extractSlidesFromHtml (Sample.doc_of [el]))
     <> [ Spec.normalized_text el ].
Proof. repeat split; discriminate. Qed.

(** C8, amended. The titles of the slides are, in order, the non-empty
    trimmed text contents of the title-boundary paragraphs: the text is
    trimmed at both ends and white-space runs inside it are kept. A
    paragraph is a boundary when its normalised text (runs collapsed, then
    trimmed) equals that of its first [strong] descendant, and the title
    equals that normalised text whenever collapsing white-space runs
    leaves the paragraph's text unchanged. *)
Theorem title_is_trimmed_text (d : document) :
  map title (extractSlidesFromHtml d)
  = filter nonempty
      (map Spec.trimmed_text (filter is_title_boundary (children (body d))))
  /\ (forall el, is_title_boundary el = true ->
        exists strong,
          querySelector "STRONG" el = Some strong
          /\ Spec.normalized_text el = Spec.normalized_text strong)
  /\ (forall el, collapse_ws (textContent el) = textContent el ->
        Spec.trimmed_text el = Spec.normalized_text el).
Proof.
  split; [|split].
  - now rewrite extract_refines_segments, map_title_filter_keep,
      (segments_title _ Spec.trimmed_text _ (nl ++ nl)).
  - intros el Hb. unfold is_title_boundary, isStrongOnlyTitle in Hb.
    apply andb_true_iff in Hb. destruct Hb as [_ Hb].
    destruct (querySelector "STRONG" el) as [strong|]; [|discriminate].
    exists strong. split; [reflexivity|].
    unfold JsString.eqb in Hb.
    destruct (list_eq_dec N.eq_dec _ _) as [E|]; [exact E | discriminate].
  - intros el H. unfold Spec.trimmed_text, Spec.normalized_text, normalize.
    now rewrite H.
Qed.

(** ** The heading-delimited segmenter *)

(** Induction on a node with the hypothesis for every child. *)
Lemma node_forall_ind (P : node -> Prop) :
  (forall s, P (TextNode s)) ->
  (forall s, P (CommentNode s)) ->
  (forall t kids, Forall P kids -> P (ElementNode t kids)) ->
  forall n, P n.
Proof.
  intros HT HC HE.
  refine (fix F (n : node) : P n :=
            match n with
            | TextNode s => HT s
            | CommentNode s => HC s
            | ElementNode t kids =>
                HE t kids
                   ((fix G (l : list node) : Forall P l :=
                       match l with
                       | [] => Forall_nil P
                       | k :: l' => Forall_cons k (F k) (G l')
                       end) kids)
            end).
Qed.

Lemma select_in_subtree_element (t t' : string) (kids after : list node) :
  select_in_subtree t (ElementNode t' kids) after
  = (if String.eqb t' t then [(ElementNode t' kids, after)] else [])
    ++ select_in_list t kids.
Proof.
  cbn [select_in_subtree]. f_equal.
  induction kids as [|k kids IH]; [reflexivity|].
  cbn [select_in_list]. now rewrite IH.
Qed.

Lemma count_in_subtree_element (t t' : string) (kids : list node) :
  count_in_subtree t (ElementNode t' kids)
  = (if String.eqb t' t then 1 else 0) + count_in_list t kids.
Proof.
  cbn [count_in_subtree]. f_equal.
  induction kids as [|k kids IH]; [reflexivity|].
  cbn [count_in_list]. now rewrite IH.
Qed.

Lemma select_in_subtree_length (t : string) (n : node) :
  forall after,
    List.length (select_in_subtree t n after) = count_in_subtree t n.
Proof.
  induction n as [s | s | t' kids IH] using node_forall_ind; intros after;
    try reflexivity.
  rewrite select_in_subtree_element, count_in_subtree_element, length_app.
  f_equal; [now destruct (String.eqb t' t)|].
  induction IH as [|k kids Hk _ IHkids]; [reflexivity|].
  cbn [select_in_list count_in_list]. now rewrite length_app, Hk, IHkids.
Qed.

Lemma select_in_list_length (t : string) (l : list node) :
  List.length (select_in_list t l) = count_in_list t l.
Proof.
  induction l as [|k l IH]; [reflexivity|].
  cbn [select_in_list count_in_list].
  now rewrite length_app, select_in_subtree_length, IH.
Qed.

Lemma querySelectorAll_length (t : string) (d : document) :
  List.length (querySelectorAll t d) = count_elements t d.
Proof.
  unfold querySelectorAll, count_elements.
  now rewrite length_app, !select_in_list_length.
Qed.

(** The [while] loop computes the concatenation the specification
    describes. *)
Lemma collect_description_spec (siblings : list node) :
  collect_description siblings
  = List.concat (map (fun el => textContent el ++ nl)
                     (Spec.siblings_until_h2 (children siblings))).
Proof.
  induction siblings as [|s siblings IH]; [reflexivity|].
  destruct s as [x | x | t kids]; try exact IH.
  cbn [collect_description children filter is_element
       Spec.siblings_until_h2 has_tag].
  destruct (String.eqb t "H2"); [reflexivity|].
  cbn [map List.concat]. fold (children siblings).
  now rewrite IH, <- app_assoc.
Qed.

(** C4. [extractSlidesFromHtml_SlideShow] gives one record per [h2], whose
    title is the heading's trimmed text and whose description is the
    concatenation of each following sibling element's text content plus a
    line break, up to the next [h2] or the end, only the assembled string
    being trimmed; for a document whose elements are an [h2] "A", a
    paragraph "x", an [h2] "B", a paragraph "y" and a paragraph "z" the
    result is exactly [{title: "A", description: "x"}] and
    [{title: "B", description: "y\nz"}]. *)
Theorem heading_delimited_example (d : document) :
  count_in_list "H2" (head d) = 0 ->
  body d = [ Sample.heading2 "A"; Sample.paragraph "x";
             Sample.heading2 "B"; Sample.paragraph "y";
             Sample.paragraph "z" ] ->
  extractSlidesFromHtml_SlideShow d
  = [ {| title := lit "A"; description := lit "x" |};
      {| title := lit "B"; description := lit "y" ++ nl ++ lit "z" |} ]
  /\ extractSlidesFromHtml_SlideShow d
     = map (fun h => {| title := trim (textContent (fst h));
                        description := Spec.description_after (snd h) |})
           (querySelectorAll "H2" d).
Proof.
  intros Hhead Hbody. split.
  - unfold extractSlidesFromHtml_SlideShow, querySelectorAll.
    rewrite Hbody.
    assert (Hnil : select_in_list "H2" (head d) = []).
    { apply length_zero_iff_nil. now rewrite select_in_list_length. }
    rewrite Hnil. reflexivity.
  - unfold extractSlidesFromHtml_SlideShow. apply map_ext. intros h.
    unfold slide_of_h2, Spec.description_after.
    now rewrite collect_description_spec.
Qed.

Lemma heading_delimited_example_witness :
  extractSlidesFromHtml_SlideShow
    (Sample.doc_of [ Sample.heading2 "A"; Sample.paragraph "x";
                     Sample.heading2 "B"; Sample.paragraph "y";
                     Sample.paragraph "z" ])
  = [ {| title := lit "A"; description := lit "x" |};
      {| title := lit "B"; description := lit "y" ++ nl ++ lit "z" |} ].
Proof.
  apply (heading_delimited_example
           (Sample.doc_of [ Sample.heading2 "A"; Sample.paragraph "x";
                            Sample.heading2 "B"; Sample.paragraph "y";
                            Sample.paragraph "z" ]));
    reflexivity.
Defined.

(** C10. [extractSlidesFromHtml_SlideShow] filters nothing: it returns one
    record per [h2] element of the document, in document order, so that
    its output has as many records as the document has [h2] elements, and
    an [h2] whose text is only white space still gives a record, with an
    empty title; the title-delimited segmenter, on the contrary, never
    returns a record with an empty title, and drops the slide of a
    bold-only paragraph whose text is only white space. *)
Theorem heading_delimited_unfiltered (d : document) :
  List.length (extractSlidesFromHtml_SlideShow d) = count_elements "H2" d
  /\ map title (extractSlidesFromHtml_SlideShow d)
     = map (fun h => trim (textContent (fst h))) (querySelectorAll "H2" d)
  /\ extractSlidesFromHtml_SlideShow (Sample.doc_of [Sample.heading2 "  "])
     = [ {| title := []; description := [] |} ]
  /\ (forall s, In s (extractSlidesFromHtml d) -> title s <> [])
  /\ extractSlidesFromHtml (Sample.doc_of [Sample.bold_paragraph "  "]) = [].
Proof.
  split; [|split; [|split; [|split]]].
  - unfold extractSlidesFromHtml_SlideShow.
    now rewrite length_map, querySelectorAll_length.
  - unfold extractSlidesFromHtml_SlideShow. now rewrite map_map.
  - reflexivity.
  - intros s Hin. unfold extractSlidesFromHtml in Hin.
    apply filter_In in Hin. destruct Hin as [_ Hk].
    unfold keep in Hk. now destruct (title s).
  - reflexivity.
Qed.

(** ** The handlers *)

(** C7, at the failing input. A request without a parsed body omits
    every required field, yet it is not answered 400: destructuring
    [req.body], which is [undefined], throws inside [try], and each of
    the four handlers answers HTTP 500 with the message of that
    TypeError. No outbound call is made. *)
Theorem missing_body_answers_500 (rt : runtime) (o : oracle)
        (ep : Spec.post) :
  serve o (Spec.handler rt ep None)
  = ([], {| status := 500;
            json := error_body
                      (msg_cannot_destructure rt
                         (lit (Spec.first_destructured ep))) |}).
Proof. destruct ep; reflexivity. Qed.

(** X19. When a body was parsed, a request to any of the four POST
    endpoints that omits one of the endpoint's required fields (or gives
    it a falsy value) is answered with HTTP 400 and the endpoint's
    missing-field message, and the handler makes no outbound call at all,
    whatever the outside world. *)
Theorem missing_field_rejected (rt : runtime) (o : oracle) (ep : Spec.post)
        (body : Req.body) :
  Spec.omits_required ep body ->
  serve o (Spec.handler rt ep (Some body))
  = ([], Spec.missing_fields_response ep).
Proof.
  intros (field & Hin & Hmiss). unfold Spec.missing in Hmiss.
  destruct ep; cbn [Spec.required In] in Hin;
    repeat (destruct Hin as [<- | Hin]); try contradiction;
    unfold serve, Spec.handler, upload_doc, create_styled_sheet,
      create_slides, create_slides_show;
    cbn [destructure bindM bind ret];
    rewrite Hmiss; cbn [negb orb];
    repeat match goal with
           | |- context [truthy ?v] => destruct (truthy v); cbn [negb orb]
           end;
    reflexivity.
Qed.

Lemma missing_field_rejected_witness :
  serve Sample.all_ok
        (create_slides (Sample.runtime_for Sample.bold_html Sample.bold_doc)
                       (Some Sample.body_without_token))
  = ([], {| status := 400;
            json := error_body
                      (lit "Missing 'access_token' or 'html_base64'") |}).
Proof.
  apply (missing_field_rejected
           (Sample.runtime_for Sample.bold_html Sample.bold_doc)
           Sample.all_ok Spec.POST_create_slides Sample.body_without_token).
  exists Req.access_token. split; [simpl; auto | reflexivity].
Defined.

Lemma in_hebrew_or_arabic_spec (c : N) :
  in_hebrew_or_arabic c = true <-> Spec.is_hebrew c \/ Spec.is_arabic c.
Proof.
  unfold in_hebrew_or_arabic, Spec.is_hebrew, Spec.is_arabic.
  rewrite orb_true_iff, !andb_true_iff, !N.leb_le. reflexivity.
Qed.

(** The regular expression works on code units; it finds one in the two
    blocks exactly when the string has a code point there, a surrogate
    pair never contributing one. *)
Lemma regex_test_code_points (html : jsstr) :
  regex_test_hebrew_or_arabic html = true <-> Spec.has_hebrew_or_arabic html.
Proof.
  unfold regex_test_hebrew_or_arabic, Spec.has_hebrew_or_arabic.
  remember (List.length html) as n eqn:Hn.
  revert html Hn. induction n as [n IH] using lt_wf_ind. intros html Hn.
  destruct html as [|hi [|lo s]].
  - cbn. split; [discriminate | now intros (cp & [] & _)].
  - cbn [existsb codePoints]. rewrite orb_false_r, in_hebrew_or_arabic_spec.
    split.
    + intros H. exists hi. split; [now left | exact H].
    + intros (cp & [<- | []] & H). exact H.
  - cbn [codePoints].
    destruct ((55296 <=? hi) && (hi <=? 56319)
              && (56320 <=? lo) && (lo <=? 57343))%N eqn:Epair.
    + rewrite !andb_true_iff, !N.leb_le in Epair.
      destruct Epair as [[[H1 H2] H3] H4].
      assert (Ehi : in_hebrew_or_arabic hi = false).
      { apply not_true_is_false. rewrite in_hebrew_or_arabic_spec.
        unfold Spec.is_hebrew, Spec.is_arabic. lia. }
      assert (Elo : in_hebrew_or_arabic lo = false).
      { apply not_true_is_false. rewrite in_hebrew_or_arabic_spec.
        unfold Spec.is_hebrew, Spec.is_arabic. lia. }
      cbn [existsb]. rewrite Ehi, Elo. cbn [orb].
      rewrite (IH (List.length s)); [|subst n; cbn; lia | reflexivity].
      split.
      * intros (cp & Hin & H). exists cp. split; [now right | exact H].
      * intros (cp & [<- | Hin] & H); [|now exists cp].
        unfold Spec.is_hebrew, Spec.is_arabic in H. lia.
    + change (existsb in_hebrew_or_arabic (hi :: lo :: s))
        with (in_hebrew_or_arabic hi
              || existsb in_hebrew_or_arabic (lo :: s)).
      rewrite orb_true_iff, in_hebrew_or_arabic_spec.
      rewrite (IH (List.length (lo :: s))); [|subst n; cbn; lia | reflexivity].
      split.
      * intros [H | (cp & Hin & H)].
        -- exists hi. split; [now left | exact H].
        -- exists cp. split; [now right | exact H].
      * intros (cp & [<- | Hin] & H); [now left | right; now exists cp].
Qed.

Lemma last_of_content {A : Type} (content : list A) :
  match nth_error content (List.length content - 1) with
  | Some el => exists front, content = front ++ [el]
  | None => content = []
  end.
Proof.
  destruct (nth_error content (List.length content - 1)) as [el|] eqn:E.
  - destruct (exists_last (l := content)) as (front & x & ->).
    + intros ->. discriminate.
    + exists front. rewrite length_app, Nat.add_sub in E.
      rewrite nth_error_app2, Nat.sub_diag in E by lia.
      now injection E as ->.
  - apply nth_error_None in E. destruct content; [reflexivity|].
    cbn [List.length] in E. lia.
Qed.

(** Find the failed call of a computed trace. *)
Ltac find_failure :=
  apply Exists_exists;
  repeat first [ apply Exists_cons_hd; cbn; discriminate
               | apply Exists_cons_tl ].

(** C6. In POST /upload-doc, for a request with its three fields present
    and decoded HTML [html], one of two things happens. Either a call
    failed, or the probe of the created document returned no structural
    element: then nothing is updated and the answer is 500. Or the
    upload created a document [id], the handler read that document once
    (the probe) and issued exactly one update, of that same document, with
    exactly one request: a paragraph-style update on the [direction]
    field whose range goes from index 1 to the end index of the last
    structural element the probe returned, and whose direction is
    RIGHT_TO_LEFT when [html] has a code point in U+0590..U+05FF or
    U+0600..U+06FF and LEFT_TO_RIGHT otherwise; if no call failed the
    answer is then 200 with the link of document [id]. In particular,
    when every call succeeds and the probe returns at least one element,
    the update is issued. *)
Theorem upload_doc_direction (rt : runtime) (o : oracle) (body : Req.body)
        (html : jsstr) :
  truthy (Req.html_base64 body) = true ->
  truthy (Req.access_token body) = true ->
  truthy (Req.file_name body) = true ->
  decode_base64_utf8 rt (Req.html_base64 body) = inr html ->
  let trace := fst (serve o (upload_doc rt (Some body))) in
  let resp := snd (serve o (upload_doc rt (Some body))) in
  (filter_map docs_update trace = []
   /\ status resp = 500%Z
   /\ ((exists e, In e trace /\ Observe.failure e <> None)
       \/ (exists id,
             In (Event (drive_files_create (Req.access_token body)
                                           (Req.file_name body))
                       (inr id)) trace
             /\ filter_map docs_probe trace = [(id, inr [])])))
  \/ (exists id content req,
        In (Event (drive_files_create (Req.access_token body)
                                      (Req.file_name body))
                  (inr id)) trace
        /\ filter_map docs_probe trace = [(id, inr content)]
        /\ filter_map docs_update trace = [(id, [req])]
        /\ Spec.direction_update html content req
        /\ (Forall (fun e => Observe.failure e = None) trace ->
            resp = {| status := 200;
                      json := url_body
                                (lit "https://docs.google.com/document/d/"
                                 ++ id ++ lit "/edit") |})).
Proof.
  intros H1 H2 H3 Hdec. unfold serve, upload_doc.
  cbn [destructure bindM bind ret].
  rewrite H1, H2, H3. cbn [negb orb]. rewrite Hdec.
  cbn -[lit regex_test_hebrew_or_arabic].
  destruct (o [] (htmlToDocx html)) as [e | docx];
    [left; repeat split; left; find_failure|].
  cbn -[lit regex_test_hebrew_or_arabic].
  destruct (o _ (fs_writeFileSync docx)) as [e | []];
    [left; repeat split; left; find_failure|].
  cbn -[lit regex_test_hebrew_or_arabic].
  destruct (o _ (drive_files_create _ _)) as [e | id];
    [left; repeat split; left; find_failure|].
  cbn -[lit regex_test_hebrew_or_arabic].
  destruct (o _ fs_unlinkSync) as [e | []];
    [left; repeat split; left; find_failure|].
  cbn -[lit regex_test_hebrew_or_arabic].
  destruct (o _ (docs_documents_get _ id)) as [e | content];
    [left; repeat split; left; find_failure|].
  cbn -[lit regex_test_hebrew_or_arabic nth_error].
  pose proof (last_of_content content) as Hlast.
  destruct (nth_error content (List.length content - 1)) as [el|].
  2:{ subst content. cbn -[lit]. left. repeat split. right. exists id.
      split; [|reflexivity]. right. right. left. reflexivity. }
  cbn -[lit regex_test_hebrew_or_arabic].
  destruct Hlast as (front & ->).
  destruct (o _ (docs_documents_batchUpdate _ _ _)) as [e | []];
    cbn -[lit regex_test_hebrew_or_arabic];
    right; exists id, (front ++ [el]); eexists;
    (split; [right; right; left; reflexivity|]);
    (split; [reflexivity|]); (split; [reflexivity|]);
    (split;
     [ exists front, el; eexists;
       (split; [reflexivity|]); (split; [reflexivity|]);
       (split;
        [ intros Hh; apply regex_test_code_points in Hh; now rewrite Hh
        | intros Hn; destruct (regex_test_hebrew_or_arabic html) eqn:E;
          [now apply regex_test_code_points in E | reflexivity] ])
     | ]).
  - intros Hall. exfalso.
    do 5 (apply Forall_inv_tail in Hall).
    apply Forall_inv in Hall. discriminate Hall.
  - intros _. reflexivity.
Qed.

Lemma upload_doc_direction_witness :
  let rt := Sample.runtime_for Sample.hebrew_html (Sample.doc_of []) in
  let trace :=
    fst (serve Sample.all_ok (upload_doc rt (Some Sample.hebrew_body))) in
  let resp :=
    snd (serve Sample.all_ok (upload_doc rt (Some Sample.hebrew_body))) in
  exists id content req,
    In (Event (drive_files_create (Req.access_token Sample.hebrew_body)
                                  (Req.file_name Sample.hebrew_body))
              (inr id)) trace
    /\ filter_map docs_probe trace = [(id, inr content)]
    /\ filter_map docs_update trace = [(id, [req])]
    /\ Spec.direction_update Sample.hebrew_html content req
    /\ (Forall (fun e => Observe.failure e = None) trace ->
        resp = {| status := 200;
                  json := url_body
                            (lit "https://docs.google.com/document/d/"
                             ++ id ++ lit "/edit") |}).
Proof.
  destruct (upload_doc_direction
              (Sample.runtime_for Sample.hebrew_html (Sample.doc_of []))
              Sample.all_ok Sample.hebrew_body Sample.hebrew_html
              eq_refl eq_refl eq_refl eq_refl) as [(Hnone & _) | Hupdate].
  - cbv in Hnone. discriminate Hnone.
  - exact Hupdate.
Defined.

(** The same run, computed: the Hebrew document is set right-to-left over
    the range 1 to 42, 42 being the end index the probe returned last. *)
Example upload_doc_hebrew_run :
  let rt := Sample.runtime_for Sample.hebrew_html (Sample.doc_of []) in
  let out := serve Sample.all_ok (upload_doc rt (Some Sample.hebrew_body)) in
  filter_map docs_update (fst out)
  = [ (lit "doc1",
       [ Docs.updateParagraphStyle
           {| Docs.startIndex := 1; Docs.endIndex := 42 |}
           Docs.RIGHT_TO_LEFT (lit "direction") ]) ]
  /\ snd out
     = {| status := 200;
          json := url_body
                    (lit "https://docs.google.com/document/d/doc1/edit") |}.
Proof. split; reflexivity. Qed.

(** A Latin document is set left-to-right. *)
Example upload_doc_latin_run :
  let rt := Sample.runtime_for Sample.bold_html Sample.bold_doc in
  let out := serve Sample.all_ok (upload_doc rt (Some Sample.full_body)) in
  filter_map docs_update (fst out)
  = [ (lit "doc1",
       [ Docs.updateParagraphStyle
           {| Docs.startIndex := 1; Docs.endIndex := 42 |}
           Docs.LEFT_TO_RIGHT (lit "direction") ]) ].
Proof. reflexivity. Qed.

(** A run only adds to the history it starts from. *)
Lemma run_extends_history {A : Type} (o : oracle) (p : prog A) :
  forall history, exists more, fst (run o history p) = history ++ more.
Proof.
  induction p as [a | c k IH]; intros history; cbn [run].
  - exists []. now rewrite app_nil_r.
  - destruct (IH (o history c) (history ++ [Event c (o history c)]))
      as (more & E).
    exists (Event c (o history c) :: more).
    now rewrite E, <- app_assoc.
Qed.

(** Once slides were found, a slide endpoint does not give the
    no-valid-slides answer without a call: it throws on the title, or it
    calls the Slides API. *)
Lemma populate_not_silent_400 (rt : runtime) (o : oracle)
      (access_token file_name : jsval) (reqs : list Layout.request) :
  run o [] (try_catch (populate rt access_token file_name reqs) on_error)
  <> ([], Spec.no_valid_slides).
Proof.
  unfold populate.
  destruct (presentationTitle rt file_name) as [e | t] eqn:Et;
    cbn -[lit]; [discriminate|].
  match goal with
  | |- run o ?h ?p <> _ =>
      destruct (run_extends_history o p h) as (more & E);
      destruct (run o h p) as [tr resp]
  end.
  cbn [fst] in E. intros Heq. injection Heq as Htr _.
  rewrite Htr in E. discriminate.
Qed.

(** C5, as stated, fails for POST /create-slides: a document with no [h2]
    but with a bold-only paragraph gives a slide, and the request is
    answered 200 after the presentation was built. *)
Lemma create_slides_ignores_h2 :
  let rt := Sample.runtime_for Sample.bold_html Sample.bold_doc in
  truthy (Req.access_token Sample.full_body) = true
  /\ truthy (Req.html_base64 Sample.full_body) = true
  /\ count_elements "H2" (JSDOM rt Sample.bold_html) = 0
  /\ snd (serve Sample.all_ok (create_slides rt (Some Sample.full_body)))
     = {| status := 200;
          json := url_body
                    (lit "https://docs.google.com/presentation/d/pres1/edit") |}
  /\ snd (serve Sample.all_ok (create_slides rt (Some Sample.full_body)))
     <> Spec.no_valid_slides.
Proof. repeat split; discriminate. Qed.

Lemma segments_empty_iff (sep : jsstr) (els : list node) :
  filter keep (Spec.segments Spec.trimmed_text sep els) = []
  <-> Forall (fun el => is_title_boundary el = true ->
                        Spec.trimmed_text el = []) els.
Proof.
  induction els as [|el els IH]; cbn [Spec.segments].
  - split; [constructor | reflexivity].
  - destruct (is_title_boundary el) eqn:Eb.
    + cbn [filter]. unfold keep at 1. cbn [title].
      destruct (Spec.trimmed_text el) as [|c t] eqn:Et; cbn [nonempty].
      * rewrite IH. split.
        -- intros H. constructor; [intros _; exact Et | exact H].
        -- intros H. now inversion H.
      * split; [discriminate|].
        intros H. inversion H as [|? ? Hel _]; subst.
        specialize (Hel Eb). rewrite Et in Hel. discriminate.
    + rewrite IH. split.
      * intros H. constructor; [now rewrite Eb | exact H].
      * intros H. now inversion H.
Qed.

(** C5, amended. For a request with both required fields present whose
    decoded HTML document has no [h2] element, POST /create-slides-show
    answers HTTP 400 "No valid slides found in HTML." without any outbound
    call, and it gives that answer only for such documents.
    POST /create-slides gives that answer exactly when its own,
    title-delimited, segmenter finds no slide, that is when every bold-only
    paragraph among the element children of the body has an empty trimmed
    text; [h2] elements play no part in it. *)
Theorem no_slides_rejected (rt : runtime) (o : oracle) (body : Req.body)
        (html : jsstr) :
  truthy (Req.access_token body) = true ->
  truthy (Req.html_base64 body) = true ->
  decode_base64_utf8 rt (Req.html_base64 body) = inr html ->
  (serve o (create_slides_show rt (Some body)) = ([], Spec.no_valid_slides)
   <-> count_elements "H2" (JSDOM rt html) = 0)
  /\ (serve o (create_slides rt (Some body)) = ([], Spec.no_valid_slides)
      <-> extractSlidesFromHtml (JSDOM rt html) = [])
  /\ (extractSlidesFromHtml (JSDOM rt html) = []
      <-> Forall (fun el => is_title_boundary el = true ->
                            Spec.trimmed_text el = [])
                 (children (Dom.body (JSDOM rt html)))).
Proof.
  intros H1 H2 Hdec. split; [|split].
  - rewrite <- querySelectorAll_length.
    unfold serve, create_slides_show. cbn [destructure bindM bind ret].
    rewrite H1, H2. cbn [negb orb].
    rewrite Hdec. cbn [bindM lift bind].
    unfold extractSlidesFromHtml_SlideShow. rewrite length_map.
    destruct (querySelectorAll "H2" (JSDOM rt html)) as [|h l].
    + split; reflexivity.
    + cbn [List.length Nat.eqb map]. split; [|discriminate].
      intros H. exfalso. revert H. apply populate_not_silent_400.
  - unfold serve, create_slides. cbn [destructure bindM bind ret].
    rewrite H1, H2. cbn [negb orb].
    rewrite Hdec. cbn [bindM lift bind].
    destruct (extractSlidesFromHtml (JSDOM rt html)) as [|s l].
    + split; reflexivity.
    + cbn [List.length Nat.eqb]. split; [|discriminate].
      intros H. exfalso. revert H. apply populate_not_silent_400.
  - rewrite extract_refines_segments. apply segments_empty_iff.
Qed.

Lemma no_slides_rejected_witness :
  let rt := Sample.runtime_for Sample.plain_html Sample.plain_doc in
  serve Sample.all_ok (create_slides_show rt (Some Sample.plain_body))
  = ([], Spec.no_valid_slides)
  /\ serve Sample.all_ok (create_slides rt (Some Sample.plain_body))
     = ([], Spec.no_valid_slides).
Proof.
  destruct (no_slides_rejected
              (Sample.runtime_for Sample.plain_html Sample.plain_doc)
              Sample.all_ok Sample.plain_body Sample.plain_html
              eq_refl eq_refl eq_refl) as (Hshow & Hcreate & _).
  split; [apply Hshow | apply Hcreate]; reflexivity.
Defined.

(* ================================================================== *)
(** * Further properties of the code *)
(* ================================================================== *)

(** ** The layout projection: size, identifiers, texts *)

Lemma forEach_push_concat {A B : Type} (f : A -> nat -> list B)
      (l : list A) :
  forall index,
    forEach_push f l index [] = List.concat (map_indexed f index l).
Proof.
  induction l as [|x l IH]; intros index; [reflexivity|].
  rewrite forEach_push_cons. cbn [map_indexed List.concat]. now rewrite IH.
Qed.

Lemma filter_map_app {A B : Type} (f : A -> option B) (l1 l2 : list A) :
  filter_map f (l1 ++ l2) = filter_map f l1 ++ filter_map f l2.
Proof.
  induction l1 as [|x l1 IH]; [reflexivity|].
  cbn [app filter_map]. destruct (f x); [cbn [app]|]; now rewrite IH.
Qed.

(** X1. Each slide contributes exactly eleven commands: the batch
    submitted for N slides has 11 N commands. *)
Theorem layout_eleven_per_slide (ep : endpoint) (slidesData : list slide) :
  List.length (slideRequests_of ep slidesData) = 11 * List.length slidesData.
Proof.
  rewrite slideRequests_of_forEach.
  enough (H : forall index,
             List.length (forEach_push (callback_of ep) slidesData index [])
             = 11 * List.length slidesData) by apply H.
  induction slidesData as [|s l IH]; intros index; [reflexivity|].
  rewrite forEach_push_cons, length_app, IH.
  destruct ep; unfold callback_of, create_slides_callback,
    create_slides_show_callback; cbn [List.length]; lia.
Qed.

Lemma lit_inj (a b : string) : lit a = lit b -> a = b.
Proof.
  unfold lit. intros H.
  rewrite <- (string_of_list_ascii_of_string a),
    <- (string_of_list_ascii_of_string b).
  f_equal. revert H.
  generalize (list_ascii_of_string a) (list_ascii_of_string b).
  intros x. induction x as [|c x IH]; intros [|d y] H;
    try discriminate; [reflexivity|].
  cbn [map] in H. injection H as Hc Ht. f_equal; [|now apply IH].
  now rewrite <- (ascii_N_embedding c), <- (ascii_N_embedding d), Hc.
Qed.

Lemma to_uint_nonnil (n : nat) : Nat.to_uint n <> Decimal.Nil.
Proof.
  intros E. assert (Hn : n = 0).
  { rewrite <- (DecimalNat.Unsigned.of_to n), E. reflexivity. }
  subst n. discriminate E.
Qed.

(** The decimal rendering of an ordinal determines the ordinal. *)
Lemma of_nat_inj (n m : nat) : of_nat n = of_nat m -> n = m.
Proof.
  unfold of_nat. intros H. apply lit_inj in H.
  apply DecimalNat.Unsigned.to_uint_inj.
  pose proof (NilZero.usu (Nat.to_uint n) (to_uint_nonnil n)) as Hn.
  pose proof (NilZero.usu (Nat.to_uint m) (to_uint_nonnil m)) as Hm.
  rewrite H, Hm in Hn. now injection Hn.
Qed.

Lemma prefixed_id_inj (p q : jsstr) (n m : nat) :
  In p Observe.id_prefixes -> In q Observe.id_prefixes ->
  p ++ of_nat n = q ++ of_nat m -> p = q /\ n = m.
Proof.
  unfold Observe.id_prefixes. cbn [In]. intros Hp Hq.
  repeat (destruct Hp as [<- | Hp]); try contradiction;
    repeat (destruct Hq as [<- | Hq]); try contradiction;
    intros H; try (cbn in H; discriminate);
    (split; [reflexivity|]); apply of_nat_inj;
    cbn in H; now repeat injection H as H.
Qed.

Lemma callback_created_ids (ep : endpoint) (s : slide) (index : nat) :
  Observe.created_ids (callback_of ep s index)
  = map (fun p => p ++ of_nat (index + 1)) Observe.id_prefixes.
Proof. destruct ep; reflexivity. Qed.

Lemma created_ids_from (ep : endpoint) (l : list slide) :
  forall index id,
    In id (Observe.created_ids (forEach_push (callback_of ep) l index [])) ->
    exists p n, In p Observe.id_prefixes /\ index < n /\ id = p ++ of_nat n.
Proof.
  induction l as [|s l IH]; intros index id Hin; [contradiction|].
  rewrite forEach_push_cons in Hin. unfold Observe.created_ids in Hin.
  rewrite filter_map_app in Hin. apply in_app_or in Hin.
  destruct Hin as [Hin | Hin].
  - fold (Observe.created_ids (callback_of ep s index)) in Hin.
    rewrite callback_created_ids in Hin. apply in_map_iff in Hin.
    destruct Hin as (p & <- & Hp). exists p, (index + 1).
    repeat split; [exact Hp | lia].
  - destruct (IH (S index) id Hin) as (p & n & Hp & Hn & ->).
    exists p, n. repeat split; [exact Hp | lia].
Qed.

(** X2. No two commands of a layout batch create an object under the same
    identifier: the identifiers derived from the slide ordinals never
    collide, within a slide or across slides. *)
Theorem layout_ids_unique (ep : endpoint) (slidesData : list slide) :
  NoDup (Observe.created_ids (slideRequests_of ep slidesData)).
Proof.
  rewrite slideRequests_of_forEach.
  enough (H : forall index,
             NoDup (Observe.created_ids
                      (forEach_push (callback_of ep) slidesData index [])))
    by apply H.
  induction slidesData as [|s l IH]; intros index; [constructor|].
  rewrite forEach_push_cons. unfold Observe.created_ids.
  rewrite filter_map_app.
  fold (Observe.created_ids (callback_of ep s index)).
  fold (Observe.created_ids (forEach_push (callback_of ep) l (S index) [])).
  rewrite callback_created_ids.
  assert (Hfresh : forall p, In p Observe.id_prefixes ->
            ~ In (p ++ of_nat (index + 1))
                 (Observe.created_ids
                    (forEach_push (callback_of ep) l (S index) []))).
  { intros p Hp Hin. apply created_ids_from in Hin.
    destruct Hin as (q & n & Hq & Hn & E).
    apply prefixed_id_inj in E; [lia | exact Hp | exact Hq]. }
  specialize (IH (S index)). revert Hfresh IH.
  generalize (Observe.created_ids
                (forEach_push (callback_of ep) l (S index) [])).
  intros rest Hfresh IH.
  assert (Hblock : forall ps,
            NoDup ps -> incl ps Observe.id_prefixes ->
            NoDup (map (fun p => p ++ of_nat (index + 1)) ps ++ rest)).
  { induction ps as [|p ps IHps]; intros Hnd Hincl; [exact IH|].
    inversion Hnd as [|? ? Hnotin Hnd']; subst. cbn [map app].
    constructor.
    - intros Hin. apply in_app_or in Hin. destruct Hin as [Hin | Hin].
      + apply in_map_iff in Hin. destruct Hin as (q & E & Hq).
        apply prefixed_id_inj in E;
          [ | apply Hincl; now right | apply Hincl; now left ].
        destruct E as [-> _]. contradiction.
      + apply (Hfresh p); [apply Hincl; now left | exact Hin].
    - apply IHps; [exact Hnd'|]. intros q Hq. apply Hincl. now right. }
  apply Hblock; [|apply incl_refl].
  unfold Observe.id_prefixes.
  repeat (constructor; [cbn [In]; intros Hin;
                        repeat (destruct Hin as [Hin | Hin];
                                [discriminate|]); contradiction|]).
  constructor.
Qed.

(** X3. No slide text is lost or reordered by the layout projection: the
    texts inserted into the title boxes are the slides' titles, in order,
    those inserted into the description boxes are the slides'
    descriptions, in order, and every footer carries the brand string. *)
Theorem layout_texts_in_order (ep : endpoint) (slidesData : list slide) :
  let emitted := slideRequests_of ep slidesData in
  filter_map (Observe.inserted_into (lit "title_")) emitted
  = map title slidesData
  /\ filter_map (Observe.inserted_into (lit "desc_")) emitted
     = map description slidesData
  /\ filter_map (Observe.inserted_into (lit "footer_")) emitted
     = repeat (lit "HelpMeTeach.AI") (List.length slidesData).
Proof.
  intros emitted. subst emitted. rewrite slideRequests_of_forEach.
  enough (H : forall index,
             let emitted := forEach_push (callback_of ep) slidesData index []
             in
             filter_map (Observe.inserted_into (lit "title_")) emitted
             = map title slidesData
             /\ filter_map (Observe.inserted_into (lit "desc_")) emitted
                = map description slidesData
             /\ filter_map (Observe.inserted_into (lit "footer_")) emitted
                = repeat (lit "HelpMeTeach.AI") (List.length slidesData))
    by apply H.
  induction slidesData as [|s l IH]; intros index;
    [repeat split; reflexivity|]. cbv zeta.
  rewrite forEach_push_cons, !filter_map_app.
  destruct (IH (S index)) as (-> & -> & ->).
  destruct ep; repeat split; reflexivity.
Qed.

(** ** The title-delimited segmenter: cuts, leading content, boundaries *)

Lemma texts_until_boundary_cut (a rest : list node) (b : node) :
  is_title_boundary b = true ->
  Spec.texts_until_boundary (a ++ b :: rest) = Spec.texts_until_boundary a.
Proof.
  intros Hb. induction a as [|el a IH]; cbn [app Spec.texts_until_boundary].
  - now rewrite Hb.
  - destruct (is_title_boundary el); [reflexivity|].
    destruct (nonempty (normalize (textContent el))); now rewrite IH.
Qed.

Lemma segments_cut (title_of : node -> jsstr) (sep : jsstr)
      (a rest : list node) (b : node) :
  is_title_boundary b = true ->
  Spec.segments title_of sep (a ++ b :: rest)
  = Spec.segments title_of sep a ++ Spec.segments title_of sep (b :: rest).
Proof.
  intros Hb. induction a as [|el a IH]; [reflexivity|].
  cbn [app]. cbn [Spec.segments] in *.
  destruct (is_title_boundary el).
  - rewrite (texts_until_boundary_cut a rest b Hb), IH. reflexivity.
  - exact IH.
Qed.

(** X4. A title boundary cuts the document: when the element children of
    a body are those of [d1] followed by those of [d2], and [d2] starts
    with a title boundary, the slides of the whole are the slides of [d1]
    followed by the slides of [d2]. Nothing buffered before the boundary
    leaks into the slides after it, and nothing after it reaches the
    slides before it. *)
Theorem segmentation_cuts_at_boundary (d d1 d2 : document) (b : node)
        (rest : list node) :
  children (body d) = children (body d1) ++ children (body d2) ->
  children (body d2) = b :: rest ->
  is_title_boundary b = true ->
  extractSlidesFromHtml d
  = extractSlidesFromHtml d1 ++ extractSlidesFromHtml d2.
Proof.
  intros Hd Hd2 Hb. rewrite !extract_refines_segments, Hd, Hd2.
  now rewrite (segments_cut _ _ _ _ _ Hb), filter_app.
Qed.

Lemma segmentation_cuts_at_boundary_witness :
  extractSlidesFromHtml
    (Sample.doc_of [ Sample.bold_paragraph "A"; Sample.paragraph "x";
                     Sample.bold_paragraph "B"; Sample.paragraph "y" ])
  = extractSlidesFromHtml
      (Sample.doc_of [ Sample.bold_paragraph "A"; Sample.paragraph "x" ])
    ++ extractSlidesFromHtml
         (Sample.doc_of [ Sample.bold_paragraph "B"; Sample.paragraph "y" ]).
Proof.
  apply (segmentation_cuts_at_boundary
           (Sample.doc_of [ Sample.bold_paragraph "A"; Sample.paragraph "x";
                            Sample.bold_paragraph "B"; Sample.paragraph "y" ])
           (Sample.doc_of [ Sample.bold_paragraph "A"; Sample.paragraph "x" ])
           (Sample.doc_of [ Sample.bold_paragraph "B"; Sample.paragraph "y" ])
           (Sample.bold_paragraph "B") [Sample.paragraph "y"]);
    reflexivity.
Defined.

Lemma segments_no_boundary (title_of : node -> jsstr) (sep : jsstr)
      (pre els : list node) :
  Forall (fun el => is_title_boundary el = false) pre ->
  Spec.segments title_of sep (pre ++ els) = Spec.segments title_of sep els.
Proof.
  induction 1 as [|el pre Hel _ IH]; [reflexivity|].
  cbn [app Spec.segments]. now rewrite Hel.
Qed.

(** X5. Content before the first title boundary is dropped entirely:
    putting any elements that are not title boundaries in front of a body
    does not change the slides. *)
Theorem leading_content_is_dropped (d d' : document) (pre : list node) :
  children (body d) = pre ++ children (body d') ->
  Forall (fun el => is_title_boundary el = false) pre ->
  extractSlidesFromHtml d = extractSlidesFromHtml d'.
Proof.
  intros Hd Hpre. rewrite !extract_refines_segments, Hd.
  now rewrite (segments_no_boundary _ _ _ _ Hpre).
Qed.

Lemma leading_content_is_dropped_witness :
  extractSlidesFromHtml
    (Sample.doc_of [ Sample.paragraph "intro"; Sample.heading2 "H";
                     Sample.bold_paragraph "T"; Sample.paragraph "x" ])
  = extractSlidesFromHtml
      (Sample.doc_of [ Sample.bold_paragraph "T"; Sample.paragraph "x" ]).
Proof.
  apply (leading_content_is_dropped
           (Sample.doc_of [ Sample.paragraph "intro"; Sample.heading2 "H";
                            Sample.bold_paragraph "T"; Sample.paragraph "x" ])
           (Sample.doc_of [ Sample.bold_paragraph "T"; Sample.paragraph "x" ])
           [ Sample.paragraph "intro"; Sample.heading2 "H" ]).
  - reflexivity.
  - repeat constructor.
Defined.

(** *** What a title boundary looks like *)

Lemma first_in_subtree_element (t t' : string) (kids : list node) :
  first_in_subtree t (ElementNode t' kids)
  = if String.eqb t' t then Some (ElementNode t' kids)
    else first_in_list t kids.
Proof.
  cbn [first_in_subtree]. destruct (String.eqb t' t); [reflexivity|].
  induction kids as [|k kids IH]; [reflexivity|].
  cbn [first_in_list]. now rewrite IH.
Qed.

(** The text of the element found is a contiguous part of the text of the
    subtree searched, and the element bears the name searched for. *)
Lemma first_in_subtree_text (t : string) (n : node) :
  forall r,
    first_in_subtree t n = Some r ->
    has_tag t r = true
    /\ exists pre post, textContent n = pre ++ textContent r ++ post.
Proof.
  induction n as [s | s | t' kids IH] using node_forall_ind; intros r Hr;
    try discriminate.
  rewrite first_in_subtree_element in Hr.
  destruct (String.eqb t' t) eqn:Et.
  - injection Hr as <-. split; [exact Et|].
    exists [], []. now rewrite app_nil_r.
  - cbn [textContent]. clear Et.
    induction IH as [|k kids Hk _ IHkids]; [discriminate|].
    cbn [first_in_list] in Hr. cbn [flat_map].
    destruct (first_in_subtree t k) as [r'|] eqn:Ek.
    + injection Hr as ->. destruct (Hk r eq_refl) as (Htag & pre & post & E).
      split; [exact Htag|].
      exists pre, (post ++ flat_map textContent kids).
      now rewrite E, <- !app_assoc.
    + destruct (IHkids Hr) as (Htag & pre & post & E).
      split; [exact Htag|].
      exists (textContent k ++ pre), post. now rewrite E, <- !app_assoc.
Qed.

Lemma first_in_list_text (t : string) (kids : list node) (r : node) :
  first_in_list t kids = Some r ->
  has_tag t r = true
  /\ exists pre post, flat_map textContent kids = pre ++ textContent r ++ post.
Proof.
  induction kids as [|k kids IH]; [discriminate|].
  cbn [first_in_list flat_map].
  destruct (first_in_subtree t k) as [r'|] eqn:Ek.
  - intros H. injection H as ->.
    destruct (first_in_subtree_text t k r Ek) as (Htag & pre & post & E).
    split; [exact Htag|].
    exists pre, (post ++ flat_map textContent kids).
    now rewrite E, <- !app_assoc.
  - intros H. destruct (IH H) as (Htag & pre & post & E).
    split; [exact Htag|].
    exists (textContent k ++ pre), post. now rewrite E, <- !app_assoc.
Qed.

Lemma visible_app (a b : jsstr) :
  Observe.visible (a ++ b) = Observe.visible a ++ Observe.visible b.
Proof. apply filter_app. Qed.

Lemma visible_trimStart (s : jsstr) :
  Observe.visible (trimStart s) = Observe.visible s.
Proof.
  induction s as [|c s IH]; [reflexivity|].
  cbn [trimStart]. destruct (is_ws c) eqn:E; [|reflexivity].
  unfold Observe.visible at 2. cbn [filter]. now rewrite E.
Qed.

Lemma visible_rev (s : jsstr) :
  Observe.visible (rev s) = rev (Observe.visible s).
Proof.
  induction s as [|c s IH]; [reflexivity|].
  cbn [rev]. rewrite visible_app, IH. unfold Observe.visible at 2 3.
  cbn [filter]. destruct (is_ws c); cbn [negb rev app];
    [now rewrite app_nil_r | reflexivity].
Qed.

Lemma visible_trim (s : jsstr) : Observe.visible (trim s) = Observe.visible s.
Proof.
  unfold trim, trimEnd.
  now rewrite visible_rev, visible_trimStart, visible_rev, rev_involutive,
    visible_trimStart.
Qed.

Lemma visible_replace_ws_runs (s : jsstr) :
  forall in_run,
    Observe.visible (replace_ws_runs in_run s) = Observe.visible s.
Proof.
  induction s as [|c s IH]; intros in_run; [reflexivity|].
  cbn [replace_ws_runs]. unfold Observe.visible at 2. cbn [filter].
  destruct (is_ws c) eqn:E; cbn [negb].
  - destruct in_run; [apply IH|].
    unfold Observe.visible at 1. cbn [filter].
    change (is_ws 32) with true. cbn [negb]. apply IH.
  - unfold Observe.visible at 1. cbn [filter]. rewrite E. cbn [negb].
    f_equal. apply IH.
Qed.

(** Normalisation changes white space only. *)
Lemma visible_normalize (s : jsstr) :
  Observe.visible (normalize s) = Observe.visible s.
Proof.
  unfold normalize, collapse_ws.
  now rewrite visible_trim, visible_replace_ws_runs.
Qed.

Lemma visible_nil_cons (c : N) (s : jsstr) :
  Observe.visible (c :: s) = [] -> is_ws c = true /\ Observe.visible s = [].
Proof.
  unfold Observe.visible. cbn [filter].
  destruct (is_ws c); [now split | discriminate].
Qed.

Lemma trimStart_blank_app (pre s : jsstr) :
  Observe.visible pre = [] -> trimStart (pre ++ s) = trimStart s.
Proof.
  induction pre as [|c pre IH]; intros H; [reflexivity|].
  apply visible_nil_cons in H. destruct H as [Hc H].
  cbn [app trimStart]. rewrite Hc. now apply IH.
Qed.

Lemma trimStart_blank (s : jsstr) : Observe.visible s = [] -> trimStart s = [].
Proof.
  intros H. rewrite <- (app_nil_r s). now rewrite trimStart_blank_app.
Qed.

Lemma trim_app_blank (y tail : jsstr) :
  Observe.visible tail = [] -> trim (y ++ tail) = trim y.
Proof.
  intros Ht. unfold trim.
  assert (Hend : forall z, trimEnd (z ++ tail) = trimEnd z).
  { intros z. unfold trimEnd. rewrite rev_app_distr.
    rewrite trimStart_blank_app; [reflexivity|].
    now rewrite visible_rev, Ht. }
  induction y as [|c y IH]; cbn [app trimStart].
  - now rewrite (trimStart_blank tail Ht).
  - destruct (is_ws c); [exact IH|].
    change (c :: y ++ tail) with ((c :: y) ++ tail). apply Hend.
Qed.

(** White space collapses to white space. *)
Lemma replace_ws_runs_blank (s : jsstr) :
  forall in_run,
    Observe.visible s = [] ->
    Observe.visible (replace_ws_runs in_run s) = [].
Proof. intros in_run H. now rewrite visible_replace_ws_runs. Qed.

Lemma replace_ws_runs_app_blank (s post : jsstr) :
  Observe.visible post = [] ->
  forall in_run,
    exists tail,
      Observe.visible tail = []
      /\ replace_ws_runs in_run (s ++ post) = replace_ws_runs in_run s ++ tail.
Proof.
  intros Hpost. induction s as [|c s IH]; intros in_run.
  - exists (replace_ws_runs in_run post). split; [|reflexivity].
    now apply replace_ws_runs_blank.
  - cbn [app replace_ws_runs]. destruct (is_ws c).
    + destruct (IH true) as (tail & Ht & E). exists tail.
      split; [exact Ht|]. destruct in_run; now rewrite E.
    + destruct (IH false) as (tail & Ht & E). exists tail.
      split; [exact Ht|]. now rewrite E.
Qed.

Lemma trimStart_replace_ws_runs (s : jsstr) :
  trimStart (replace_ws_runs true s) = trimStart (replace_ws_runs false s).
Proof.
  destruct s as [|c s]; [reflexivity|].
  cbn [replace_ws_runs]. destruct (is_ws c); [|reflexivity].
  cbn [trimStart]. now change (is_ws 32) with true.
Qed.

Lemma replace_ws_runs_blank_app (pre s : jsstr) :
  Observe.visible pre = [] ->
  forall in_run,
    trimStart (replace_ws_runs in_run (pre ++ s))
    = trimStart (replace_ws_runs false s).
Proof.
  induction pre as [|c pre IH]; intros H in_run.
  - cbn [app]. destruct in_run; [apply trimStart_replace_ws_runs|reflexivity].
  - apply visible_nil_cons in H. destruct H as [Hc H].
    cbn [app replace_ws_runs]. rewrite Hc.
    destruct in_run; [now apply IH|].
    cbn [trimStart]. change (is_ws 32) with true. now apply IH.
Qed.

(** White space around a text does not change its normal form. *)
Lemma normalize_blank_around (pre s post : jsstr) :
  Observe.visible pre = [] -> Observe.visible post = [] ->
  normalize (pre ++ s ++ post) = normalize s.
Proof.
  intros Hpre Hpost. unfold normalize, collapse_ws.
  transitivity (trim (replace_ws_runs false (s ++ post))).
  - unfold trim. now rewrite replace_ws_runs_blank_app.
  - destruct (replace_ws_runs_app_blank s post Hpost false)
      as (tail & Ht & ->).
    now apply trim_app_blank.
Qed.

(** X6. A paragraph is taken as a title boundary exactly when it has a
    [strong] descendant and everything outside the first one is white
    space: its text is the text of that [strong] element with only white
    space before and after it. A paragraph with visible text outside its
    first bold run is never a title, and surrounding white space or line
    breaks do not prevent a bold-only paragraph from being one. *)
Theorem boundary_iff_bold_only (p : node) :
  is_title_boundary p = true
  <-> has_tag "P" p = true
      /\ exists strong pre post,
           querySelector "STRONG" p = Some strong
           /\ has_tag "STRONG" strong = true
           /\ textContent p = pre ++ textContent strong ++ post
           /\ Observe.visible pre = []
           /\ Observe.visible post = [].
Proof.
  split.
  - intros Hb. unfold is_title_boundary, isStrongOnlyTitle in Hb.
    apply andb_true_iff in Hb. destruct Hb as [Htag Hb].
    split; [exact Htag|].
    destruct (querySelector "STRONG" p) as [strong|] eqn:Eq; [|discriminate].
    unfold JsString.eqb in Hb.
    destruct (list_eq_dec N.eq_dec _ _) as [E|]; [clear Hb | discriminate].
    fold (normalize (textContent p)) in E.
    fold (normalize (textContent strong)) in E.
    apply (f_equal Observe.visible) in E. rewrite !visible_normalize in E.
    destruct p as [s | s | t kids]; try discriminate.
    cbn [querySelector] in Eq.
    destruct (first_in_list_text "STRONG" kids strong Eq)
      as (Hstrong & pre & post & Etext).
    exists strong, pre, post. cbn [textContent].
    split; [reflexivity|]. split; [exact Hstrong|]. split; [exact Etext|].
    cbn [textContent] in E. rewrite Etext, !visible_app in E.
    apply (f_equal (@List.length N)) in E. rewrite !length_app in E.
    split; apply length_zero_iff_nil; lia.
  - intros (Htag & strong & pre & post & Eq & _ & Etext & Hpre & Hpost).
    unfold is_title_boundary, isStrongOnlyTitle. rewrite Htag, Eq.
    cbn [andb]. fold (normalize (textContent p)).
    fold (normalize (textContent strong)).
    rewrite Etext, (normalize_blank_around _ _ _ Hpre Hpost).
    unfold JsString.eqb.
    now destruct (list_eq_dec N.eq_dec _ _).
Qed.

Lemma boundary_with_line_breaks :
  is_title_boundary
    (ElementNode "P" [ TextNode (nl ++ lit "  ");
                       ElementNode "STRONG" [TextNode (lit "Title")];
                       TextNode nl ])
  = true.
Proof. reflexivity. Qed.

(** ** What the slide records look like *)

Lemma texts_until_boundary_trimmed (els : list node) :
  Forall trimmed (Spec.texts_until_boundary els).
Proof.
  induction els as [|el els IH]; cbn [Spec.texts_until_boundary];
    [constructor|].
  destruct (is_title_boundary el); [constructor|].
  destruct (nonempty (normalize (textContent el))) eqn:E; [|exact IH].
  constructor; [now apply normalize_trimmed | exact IH].
Qed.

Lemma in_segments (title_of : node -> jsstr) (sep : jsstr) (els : list node)
      (s : slide) :
  In s (Spec.segments title_of sep els) ->
  exists el rest,
    title s = title_of el
    /\ description s = join sep (Spec.texts_until_boundary rest).
Proof.
  induction els as [|el els IH]; [contradiction|].
  cbn [Spec.segments]. destruct (is_title_boundary el); [|exact IH].
  intros [<- | Hin]; [now exists el, els | now apply IH].
Qed.

Lemma join_nil_or_trimmed (sep : jsstr) (l : list jsstr) :
  Forall trimmed l -> join sep l = [] \/ trimmed (join sep l).
Proof.
  intros H. destruct l as [|x l]; [now left|].
  right. apply join_trimmed; [exact H | discriminate].
Qed.

(** X7. The records of both segmenters carry no white space at either
    end: a title of the title-delimited segmenter is non-empty and neither
    starts nor ends with white space, and its description is empty or
    such a string; titles and descriptions of the heading-delimited
    segmenter are empty or such strings. *)
Theorem slide_texts_are_trimmed (d : document) :
  (forall s, In s (extractSlidesFromHtml d) ->
     trimmed (title s)
     /\ (description s = [] \/ trimmed (description s)))
  /\ (forall s, In s (extractSlidesFromHtml_SlideShow d) ->
        (title s = [] \/ trimmed (title s))
        /\ (description s = [] \/ trimmed (description s))).
Proof.
  split.
  - intros s Hin. rewrite extract_refines_segments in Hin.
    apply filter_In in Hin. destruct Hin as [Hin Hkeep].
    apply in_segments in Hin. destruct Hin as (el & rest & Et & Ed).
    split.
    + unfold keep in Hkeep. rewrite Et in *. unfold Spec.trimmed_text in *.
      destruct (trim_result (textContent el)) as [E | H]; [|exact H].
      now rewrite E in Hkeep.
    + rewrite Ed. apply join_nil_or_trimmed, texts_until_boundary_trimmed.
  - intros s Hin. unfold extractSlidesFromHtml_SlideShow in Hin.
    apply in_map_iff in Hin. destruct Hin as (h & <- & _).
    unfold slide_of_h2. cbn [title description].
    split; apply trim_result.
Qed.

(** *** Paragraphs of a description *)

Lemma in_trimStart (c : N) (s : jsstr) : In c (trimStart s) -> In c s.
Proof.
  induction s as [|a s IH]; [easy|].
  cbn [trimStart]. destruct (is_ws a); [right; now apply IH | easy].
Qed.

Lemma in_trim (c : N) (s : jsstr) : In c (trim s) -> In c s.
Proof.
  unfold trim, trimEnd. intros H.
  apply in_rev, in_trimStart, in_rev in H. now apply in_trimStart.
Qed.

Lemma in_replace_ws_runs (c : N) (s : jsstr) :
  forall in_run,
    In c (replace_ws_runs in_run s) -> is_ws c = true -> c = 32%N.
Proof.
  induction s as [|a s IH]; intros in_run Hin Hws; [contradiction|].
  cbn [replace_ws_runs] in Hin. destruct (is_ws a) eqn:Ea.
  - destruct in_run; [now apply (IH true)|].
    destruct Hin as [<- | Hin]; [reflexivity | now apply (IH true)].
  - destruct Hin as [<- | Hin]; [congruence | now apply (IH false)].
Qed.

(** A normalised text has no line feed. *)
Lemma normalize_no_line_feed (s : jsstr) : ~ In 10%N (normalize s).
Proof.
  intros H. unfold normalize, collapse_ws in H. apply in_trim in H.
  apply in_replace_ws_runs in H; [discriminate | reflexivity].
Qed.

Lemma texts_until_boundary_no_line_feed (els : list node) :
  Forall (fun x => ~ In 10%N x) (Spec.texts_until_boundary els).
Proof.
  induction els as [|el els IH]; cbn [Spec.texts_until_boundary];
    [constructor|].
  destruct (is_title_boundary el); [constructor|].
  destruct (nonempty (normalize (textContent el))); [|exact IH].
  constructor; [apply normalize_no_line_feed | exact IH].
Qed.

(** Two texts without line feed that are followed by one agree. *)
Lemma split_at_line_feed (a b u v : jsstr) :
  ~ In 10%N a -> ~ In 10%N b ->
  a ++ 10%N :: u = b ++ 10%N :: v -> a = b /\ u = v.
Proof.
  revert b. induction a as [|x a IH]; intros [|y b] Ha Hb E.
  - now injection E.
  - injection E as <- _. exfalso. apply Hb. now left.
  - injection E as -> _. exfalso. apply Ha. now left.
  - injection E as <- E.
    destruct (IH b) as [-> ->]; try exact E; try easy.
    + intros H. apply Ha. now right.
    + intros H. apply Hb. now right.
Qed.

Lemma join_line_feed_inj (l1 : list jsstr) :
  forall l2,
    Forall (fun x => ~ In 10%N x) l1 ->
    Forall (fun x => ~ In 10%N x) l2 ->
    Forall trimmed l1 -> Forall trimmed l2 ->
    join (nl ++ nl) l1 = join (nl ++ nl) l2 -> l1 = l2.
Proof.
  induction l1 as [|x l1 IH]; intros l2 H1 H2 T1 T2 E.
  - destruct l2 as [|y l2]; [reflexivity|].
    exfalso. apply Forall_inv in T2. destruct T2 as [Hy _].
    destruct l2; cbn in E; destruct y; try discriminate; contradiction.
  - destruct l2 as [|y l2].
    + exfalso. apply Forall_inv in T1. destruct T1 as [Hx _].
      destruct l1; cbn in E; destruct x; try discriminate; contradiction.
    + inversion H1 as [|? ? Hx H1']; subst.
      inversion H2 as [|? ? Hy H2']; subst.
      inversion T1 as [|? ? _ T1']; subst.
      inversion T2 as [|? ? _ T2']; subst.
      destruct l1 as [|x' l1], l2 as [|y' l2].
      * cbn in E. now subst.
      * exfalso. apply Hx.
        change (join (nl ++ nl) (y :: y' :: l2))
          with (y ++ 10%N :: 10%N :: join (nl ++ nl) (y' :: l2)) in E.
        cbn [join] in E. rewrite E. apply in_or_app. right. now left.
      * exfalso. apply Hy.
        change (join (nl ++ nl) (x :: x' :: l1))
          with (x ++ 10%N :: 10%N :: join (nl ++ nl) (x' :: l1)) in E.
        cbn [join] in E. rewrite <- E. apply in_or_app. right. now left.
      * change (join (nl ++ nl) (x :: x' :: l1))
          with (x ++ 10%N :: 10%N :: join (nl ++ nl) (x' :: l1)) in E.
        change (join (nl ++ nl) (y :: y' :: l2))
          with (y ++ 10%N :: 10%N :: join (nl ++ nl) (y' :: l2)) in E.
        apply split_at_line_feed in E; [|exact Hx | exact Hy].
        destruct E as [-> E]. injection E as E.
        f_equal. now apply IH.
Qed.

(** X8. A description of the title-delimited segmenter keeps its
    paragraphs apart: the buffered texts hold no line feed, so that two
    runs of content give the same description only if they are the same
    list of texts, and the texts can be told from the description by
    cutting it at the blank lines. *)
Theorem description_determines_texts (els1 els2 : list node) :
  Forall (fun x => ~ In 10%N x) (Spec.texts_until_boundary els1)
  /\ (join (nl ++ nl) (Spec.texts_until_boundary els1)
      = join (nl ++ nl) (Spec.texts_until_boundary els2)
      -> Spec.texts_until_boundary els1 = Spec.texts_until_boundary els2).
Proof.
  split; [apply texts_until_boundary_no_line_feed|].
  apply join_line_feed_inj;
    auto using texts_until_boundary_no_line_feed,
               texts_until_boundary_trimmed.
Qed.

(** ** The heading-delimited segmenter: what reaches a description *)

Lemma collect_description_children (siblings : list node) :
  collect_description siblings = collect_description (children siblings).
Proof.
  induction siblings as [|s siblings IH]; [reflexivity|].
  destruct s as [x | x | t kids]; try exact IH.
  cbn [children filter is_element collect_description].
  fold (children siblings). now rewrite IH.
Qed.

(** X9. In the heading-delimited segmenter, text and comments lying
    directly between the elements never reach a description, only the
    element siblings count; a heading whose next element sibling is
    another [h2], or that has none, gets the empty description; and
    nothing after the next [h2] among the siblings reaches the
    description. *)
Theorem heading_description_scope (h : node) (siblings : list node) :
  slide_of_h2 (h, siblings) = slide_of_h2 (h, children siblings)
  /\ (children siblings = [] ->
      description (slide_of_h2 (h, siblings)) = [])
  /\ (forall before kids after,
        children siblings = before ++ ElementNode "H2" kids :: after ->
        Forall (fun el => has_tag "H2" el = false) before ->
        slide_of_h2 (h, siblings) = slide_of_h2 (h, before)).
Proof.
  unfold slide_of_h2. cbn [fst snd]. split; [|split].
  - now rewrite collect_description_children.
  - intros E. now rewrite collect_description_children, E.
  - intros before kids after E Hb. f_equal.
    rewrite collect_description_children, E. f_equal. clear E.
    induction Hb as [|el before Hel _ IH]; [reflexivity|].
    destruct el as [x | x | t k]; cbn [app collect_description];
      [exact IH | exact IH |].
    cbn [has_tag] in Hel. rewrite Hel. now rewrite IH.
Qed.

(** ** The handlers: failures, validation, order of the calls *)

(** Run a handler step by step: split on every test it makes and on the
    outcome of every call it performs. *)
Ltac run_handler o :=
  unfold serve, Spec.handler, upload_doc, create_styled_sheet,
    create_slides, create_slides_show, populate;
  repeat
    (cbn -[lit slideRequests_create_slides slideRequests_create_slides_show
           extractSlidesFromHtml extractSlidesFromHtml_SlideShow
           regex_test_hebrew_or_arabic nth_error trim selectAll
           presentationTitle headerStyle bodyStyle map_indexed
           Observe.table_values String.eqb];
     match goal with
     | |- context [truthy ?v] => destruct (truthy v) eqn:?
     | |- context [decode_base64_utf8 ?rt ?v] =>
         destruct (decode_base64_utf8 rt v) eqn:?
     | |- context [presentationTitle ?rt ?f] =>
         destruct (presentationTitle rt f) eqn:?
     | |- context [extractSlidesFromHtml ?d] =>
         destruct (extractSlidesFromHtml d) eqn:?
     | |- context [extractSlidesFromHtml_SlideShow ?d] =>
         destruct (extractSlidesFromHtml_SlideShow d) eqn:?
     | |- context [selectAll (String.eqb "table") ?d] =>
         destruct (selectAll (String.eqb "table") d) eqn:?
     | |- context [selectAll_undefined ?rt] =>
         destruct (selectAll_undefined rt) eqn:?
     | |- context [nth_error ?c ?i] => destruct (nth_error c i) eqn:?
     | |- context [o ?h ?c] => destruct (o h c) as [? | ?]
     | |- context [match ?r with [] => _ | _ :: _ => _ end] =>
         is_var r; destruct r
     end).

Lemma fails_only_last_sound (trace : list event) (resp : response) :
  Observe.fails_only_last trace resp ->
  forall before e after message,
    trace = before ++ e :: after ->
    Observe.failure e = Some message ->
    after = [] /\ resp = {| status := 500; json := error_body message |}.
Proof.
  induction trace as [|x trace IH]; intros H before e after message E Hf.
  - now destruct before.
  - cbn [Observe.fails_only_last] in H. destruct before as [|b before].
    + injection E as -> ->. now rewrite Hf in H.
    + injection E as -> ->. destruct (Observe.failure b) eqn:Eb.
      * destruct H as [Hnil _]. now destruct before.
      * now apply (IH H before e after message).
Qed.

(** X10. Every handler stops at the first call that fails: a failed call
    is the last call of the run, nothing is attempted after it (no retry,
    no cleanup of what was already created), and the answer is HTTP 500
    carrying the message of that failure. *)
Theorem handler_stops_at_first_failure (rt : runtime) (o : oracle)
        (ep : Spec.post) (req_body : option Req.body) :
  forall before e after message,
    fst (serve o (Spec.handler rt ep req_body)) = before ++ e :: after ->
    Observe.failure e = Some message ->
    after = []
    /\ snd (serve o (Spec.handler rt ep req_body))
       = {| status := 500; json := error_body message |}.
Proof.
  apply fails_only_last_sound.
  destruct req_body as [body|]; destruct ep; run_handler o; cbn; auto.
Qed.

Lemma handler_stops_at_first_failure_witness :
  let rt := Sample.runtime_for Sample.bold_html Sample.bold_doc in
  (@nil event) = []
  /\ snd (serve Sample.upload_rejected
                (Spec.handler rt Spec.POST_upload_doc
                              (Some Sample.full_body)))
     = {| status := 500;
          json := error_body (lit "Insufficient Permission") |}.
Proof.
  apply (handler_stops_at_first_failure
           (Sample.runtime_for Sample.bold_html Sample.bold_doc)
           Sample.upload_rejected Spec.POST_upload_doc
           (Some Sample.full_body)
           [ Event (htmlToDocx Sample.bold_html) (inr [80; 75]%N);
             Event (fs_writeFileSync [80; 75]%N) (inr tt) ]
           (Event (drive_files_create (JString (lit "token"))
                                      (JString (lit "deck")))
                  (inl (lit "Insufficient Permission")))
           [] (lit "Insufficient Permission"));
    reflexivity.
Defined.

(** The rejected upload, run: the temporary file is written and never
    deleted, nothing follows the failed call. *)
Example upload_rejected_run :
  let rt := Sample.runtime_for Sample.bold_html Sample.bold_doc in
  Observe.calls (fst (serve Sample.upload_rejected
                        (upload_doc rt (Some Sample.full_body))))
  = [ htmlToDocx Sample.bold_html;
      fs_writeFileSync [80; 75]%N;
      drive_files_create (JString (lit "token")) (JString (lit "deck")) ].
Proof. reflexivity. Qed.

(** X11. A validation answer is given before anything is attempted, and
    success means that everything went through: a handler that answers
    HTTP 400 has made no call, a handler that answers 200 has made at
    least one call and none of its calls failed, and no other status than
    200, 400 and 500 is ever sent. *)
Theorem status_and_calls (rt : runtime) (o : oracle) (ep : Spec.post)
        (req_body : option Req.body) :
  let trace := fst (serve o (Spec.handler rt ep req_body)) in
  let resp := snd (serve o (Spec.handler rt ep req_body)) in
  (status resp = 400%Z -> trace = [])
  /\ (status resp = 200%Z ->
      trace <> [] /\ Forall (fun e => Observe.failure e = None) trace)
  /\ (status resp = 200%Z \/ status resp = 400%Z \/ status resp = 500%Z).
Proof.
  destruct req_body as [body|]; destruct ep; run_handler o; cbn;
    (split; [|split]);
    try (intros H; discriminate H);
    try reflexivity;
    try (intros _; split; [discriminate | repeat constructor]);
    auto.
Qed.

(** X12. When decoding [html_base64] throws (a truthy value that is not a
    string, for instance), every handler answers HTTP 500 with the
    message thrown and makes no call. *)
Theorem decode_failure_is_500 (rt : runtime) (o : oracle) (ep : Spec.post)
        (body : Req.body) (message : exn) :
  (forall field, In field (Spec.required ep) -> truthy (field body) = true) ->
  decode_base64_utf8 rt (Req.html_base64 body) = inl message ->
  serve o (Spec.handler rt ep (Some body))
  = ([], {| status := 500; json := error_body message |}).
Proof.
  intros Hreq Hdec.
  destruct ep; cbn [Spec.required] in Hreq;
    unfold serve, Spec.handler, upload_doc, create_styled_sheet,
      create_slides, create_slides_show;
    cbn [destructure bindM bind ret];
    repeat match goal with
           | |- context [truthy (?f body)] =>
               rewrite (Hreq f) by (cbn [In]; auto)
           end;
    cbn [negb orb]; rewrite Hdec; reflexivity.
Qed.

Lemma decode_failure_is_500_witness :
  serve Sample.all_ok
        (create_slides
           (Sample.strict_runtime Sample.bold_html Sample.bold_doc)
           (Some Sample.number_body))
  = ([], {| status := 500;
            json := error_body
                      (lit "The first argument must be of type string or an instance of Buffer, ArrayBuffer, or Array or an Array-like Object.") |}).
Proof.
  apply (decode_failure_is_500
           (Sample.strict_runtime Sample.bold_html Sample.bold_doc)
           Sample.all_ok Spec.POST_create_slides Sample.number_body).
  - intros field Hin. cbn [Spec.required In] in Hin.
    destruct Hin as [<- | [<- | []]]; reflexivity.
  - reflexivity.
Defined.

(** Work out what a membership in a computed trace says. *)
Ltac trace_cases :=
  cbn [Observe.calls map In fst snd ev_call] in *;
  repeat match goal with
         | H : _ \/ _ |- _ => destruct H
         | H : False |- _ => destruct H
         | H : exists _, _ |- _ => destruct H
         | H : _ /\ _ |- _ => destruct H
         | H : Event _ _ = Event _ _ |- _ =>
             let Hf := fresh "Hf" in
             pose proof (f_equal Observe.failure H) as Hf;
             cbn [Observe.failure ev_reply] in Hf;
             apply (f_equal ev_call) in H; cbn [ev_call] in H
         end;
  try congruence.




(** A successful upload, run: the deletion follows the upload at once. *)
Example upload_then_unlink_run :
  let rt := Sample.runtime_for Sample.bold_html Sample.bold_doc in
  firstn 4 (Observe.calls (fst (serve Sample.all_ok
                                  (upload_doc rt (Some Sample.full_body)))))
  = [ htmlToDocx Sample.bold_html;
      fs_writeFileSync [80; 75]%N;
      drive_files_create (JString (lit "token")) (JString (lit "deck"));
      fs_unlinkSync ].
Proof. reflexivity. Qed.

Lemma presentationTitle_ok (rt : runtime) (file_name : jsval) (t : jsstr) :
  presentationTitle rt file_name = inr t ->
  nonempty (trim t) = true
  /\ (file_name = JString t \/ t = lit "My Presentation").
Proof.
  unfold presentationTitle.
  destruct (truthy file_name).
  - destruct file_name as [| | b | z | s |]; try discriminate.
    destruct (nonempty (trim s)) eqn:E; intros H; injection H as <-.
    + split; [exact E | now left].
    + split; [reflexivity | now right].
  - intros H. injection H as <-. split; [reflexivity | now right].
Qed.

(** X14. A presentation is never created under a blank title: in both
    slide endpoints the title given to [presentations.create] has a
    visible character, and it is the request's [file_name] or
    "My Presentation"; a missing, falsy or white-space-only [file_name]
    gives "My Presentation", and a truthy [file_name] that is not a string
    is a TypeError. *)
Theorem presentation_title_never_blank (rt : runtime) (o : oracle)
        (ep : endpoint) (body : Req.body) :
  (forall auth t,
     In (slides_presentations_create auth t)
        (Observe.calls
           (fst (serve o (Observe.slide_handler rt ep (Some body))))) ->
     nonempty (trim t) = true
     /\ (Req.file_name body = JString t \/ t = lit "My Presentation"))
  /\ (forall f,
        truthy f = false \/ (exists s, f = JString s /\ trim s = []) ->
        presentationTitle rt f = inr (lit "My Presentation"))
  /\ (forall f,
        truthy f = true -> (forall s, f <> JString s) ->
        presentationTitle rt f = inl (msg_trim_not_a_function rt)).
Proof.
  split; [|split].
  - intros auth t.
    destruct ep; unfold Observe.slide_handler; run_handler o; cbn;
      intros; trace_cases;
      match goal with
      | H : slides_presentations_create _ _ = slides_presentations_create _ _
        |- _ => injection H as <- <-
      end;
      eapply presentationTitle_ok; eassumption.
  - intros f [Hf | (s & -> & Hs)]; unfold presentationTitle.
    + now rewrite Hf.
    + destruct (truthy (JString s)); [now rewrite Hs | reflexivity].
  - intros f Hf Hns. unfold presentationTitle. rewrite Hf.
    destruct f; try reflexivity. now destruct (Hns s).
Qed.

(** X15. A slide endpoint answers 200 only after the whole sequence went
    through: the presentation was created under the computed title, the
    presentation that call returned was read back, its first page (the
    default slide) deleted, and the layout of exactly the slides its
    segmenter found submitted to it as one batch, in this order and with
    nothing else; the link returned is that of the presentation the
    first call created. *)
Theorem slides_success_sequence (rt : runtime) (o : oracle) (ep : endpoint)
        (body : Req.body) :
  let trace := fst (serve o (Observe.slide_handler rt ep (Some body))) in
  let resp := snd (serve o (Observe.slide_handler rt ep (Some body))) in
  status resp = 200%Z ->
  exists html t presentationId first others,
    decode_base64_utf8 rt (Req.html_base64 body) = inr html
    /\ Observe.segmenter ep (JSDOM rt html) <> []
    /\ presentationTitle rt (Req.file_name body) = inr t
    /\ Observe.calls trace
       = [ slides_presentations_create (Req.access_token body) t;
           slides_presentations_get (Req.access_token body) presentationId;
           slides_presentations_batchUpdate
             (Req.access_token body) presentationId
             [deleteObject (page_objectId first)];
           slides_presentations_batchUpdate
             (Req.access_token body) presentationId
             (slideRequests_of ep (Observe.segmenter ep (JSDOM rt html))) ]
    /\ (exists rest,
          trace
          = Event (slides_presentations_create (Req.access_token body) t)
                  (inr presentationId)
            :: Event (slides_presentations_get (Req.access_token body)
                                               presentationId)
                     (inr (first :: others))
            :: rest)
    /\ Forall (fun e => Observe.failure e = None) trace
    /\ resp = {| status := 200;
                 json := url_body (Observe.presentation_url presentationId) |}.
Proof.
  destruct ep; unfold Observe.slide_handler, Observe.segmenter,
    slideRequests_of; run_handler o; cbn; intros H; try discriminate H;
    eexists _, _, _, _, _;
    (split; [reflexivity|]);
    (split; [match goal with
             | Hs : _ = _ :: _ |- _ => rewrite Hs; discriminate
             end|]);
    (split; [reflexivity|]);
    (split; [match goal with
             | Hs : _ = _ :: _ |- _ => rewrite Hs; reflexivity
             end|]);
    (split; [eexists; reflexivity|]);
    (split; [repeat constructor | reflexivity]).
Qed.

Lemma slides_success_sequence_witness :
  let rt := Sample.runtime_for Sample.bold_html Sample.bold_doc in
  let trace :=
    fst (serve Sample.all_ok
           (Observe.slide_handler rt CreateSlides (Some Sample.full_body))) in
  let resp :=
    snd (serve Sample.all_ok
           (Observe.slide_handler rt CreateSlides (Some Sample.full_body))) in
  exists html t presentationId first others,
    decode_base64_utf8 rt (Req.html_base64 Sample.full_body) = inr html
    /\ Observe.segmenter CreateSlides (JSDOM rt html) <> []
    /\ presentationTitle rt (Req.file_name Sample.full_body) = inr t
    /\ Observe.calls trace
       = [ slides_presentations_create
             (Req.access_token Sample.full_body) t;
           slides_presentations_get
             (Req.access_token Sample.full_body) presentationId;
           slides_presentations_batchUpdate
             (Req.access_token Sample.full_body) presentationId
             [deleteObject (page_objectId first)];
           slides_presentations_batchUpdate
             (Req.access_token Sample.full_body) presentationId
             (slideRequests_of CreateSlides
                (Observe.segmenter CreateSlides (JSDOM rt html))) ]
    /\ (exists rest,
          trace
          = Event (slides_presentations_create
                     (Req.access_token Sample.full_body) t)
                  (inr presentationId)
            :: Event (slides_presentations_get
                        (Req.access_token Sample.full_body) presentationId)
                     (inr (first :: others))
            :: rest)
    /\ Forall (fun e => Observe.failure e = None) trace
    /\ resp = {| status := 200;
                 json := url_body (Observe.presentation_url presentationId) |}.
Proof.
  apply (slides_success_sequence
           (Sample.runtime_for Sample.bold_html Sample.bold_doc)
           Sample.all_ok CreateSlides Sample.full_body).
  reflexivity.
Defined.

(** ** POST /create-styled-sheet: the grid and its formatting *)

Lemma mod2_eqb_even (i : nat) : Nat.eqb (i mod 2) 0 = Nat.even i.
Proof.
  destruct (Nat.even i) eqn:E.
  - apply Nat.even_spec in E. destruct E as (m & ->).
    apply Nat.eqb_eq. rewrite Nat.mul_comm. apply Nat.Div0.mod_mul.
  - apply Nat.eqb_neq. intros H.
    assert (Hev : Nat.even i = true).
    { apply Nat.even_spec. exists (i / 2).
      pose proof (Nat.div_mod_eq i 2). lia. }
    congruence.
Qed.

Lemma bodyStyles_shades (rows : list (list jsstr)) :
  forall i,
    map Observe.row_shade (map_indexed bodyStyle i rows)
    = map (fun k => (k, S k, if Nat.odd k then Observe.white
                             else Observe.light_grey))
          (seq (i + 1) (List.length rows)).
Proof.
  induction rows as [|row rows IH]; intros i; [reflexivity|].
  cbn [map_indexed map List.length seq]. rewrite (IH (S i)).
  replace (S i + 1) with (S (i + 1)) by lia. f_equal.
  unfold bodyStyle, Observe.row_shade.
  cbn [Sheets.startRowIndex Sheets.endRowIndex Sheets.backgroundColor].
  rewrite mod2_eqb_even. replace (i + 2) with (S (i + 1)) by lia.
  replace (i + 1) with (S i) by lia. rewrite Nat.odd_succ.
  reflexivity.
Qed.

Lemma table_values_trimmed (rows : list node) :
  List.length (Observe.table_values rows) = List.length rows
  /\ Forall (Forall (fun cell => cell = [] \/ trimmed cell))
            (Observe.table_values rows).
Proof.
  unfold Observe.table_values. split; [apply length_map|].
  apply Forall_map, Forall_forall. intros row _.
  apply Forall_map, Forall_forall. intros cell _. apply trim_result.
Qed.

(** X16. POST /create-styled-sheet, for a request with both fields present
    whose document has a table. The first call always creates the
    spreadsheet, under the request's [title] or "Styled Sheet" when the
    request has none. If that succeeds, the next call writes the values
    to the spreadsheet just created, at "Sheet1!A1": one row per [tr]
    below the first table, every cell empty or without white space at
    either end. If that succeeds, the next and last call formats the
    same spreadsheet in one batch: row 0 as the header, then every
    further row of the grid once, row k over the range k to k+1, white
    when k is odd and light grey when k is even. If that succeeds too,
    the answer is 200 with the link of the spreadsheet created. *)
Theorem sheet_grid_and_formatting (rt : runtime) (o : oracle)
        (body : Req.body) (html : jsstr) (rows : list node) :
  truthy (Req.access_token body) = true ->
  truthy (Req.html_base64 body) = true ->
  decode_base64_utf8 rt (Req.html_base64 body) = inr html ->
  Observe.table_rows (parseDocument rt html) = Some rows ->
  let title := match Req.title body with
               | JUndefined => JString (lit "Styled Sheet")
               | given => given
               end in
  let values := Observe.table_values rows in
  let trace := fst (serve o (create_styled_sheet rt (Some body))) in
  let resp := snd (serve o (create_styled_sheet rt (Some body))) in
  List.length values = List.length rows
  /\ Forall (Forall (fun cell => cell = [] \/ trimmed cell)) values
  /\ exists created rest1,
       trace
       = Event (sheets_spreadsheets_create (Req.access_token body) title)
               created :: rest1
       /\ forall id,
            created = inr id ->
            exists written rest2,
              rest1
              = Event (sheets_spreadsheets_values_update
                         (Req.access_token body) id (lit "Sheet1!A1") values)
                      written :: rest2
              /\ forall w,
                   written = inr w ->
                   exists requests formatted,
                     rest2
                     = [ Event (sheets_spreadsheets_batchUpdate
                                  (Req.access_token body) id requests)
                               formatted ]
                     /\ map Observe.row_shade requests
                        = (0, 1, {| Sheets.red := 25; Sheets.green := 32;
                                    Sheets.blue := 71 |})
                          :: map (fun k =>
                                    (k, S k,
                                     if Nat.odd k then Observe.white
                                     else Observe.light_grey))
                                 (seq 1 (List.length rows - 1))
                     /\ forall f,
                          formatted = inr f ->
                          resp
                          = {| status := 200;
                               json :=
                                 url_body
                                   (lit "https://docs.google.com/spreadsheets/d/"
                                    ++ id ++ lit "/edit") |}.
Proof.
  intros H1 H2 Hdec Hrows title values. subst title values.
  unfold Observe.table_rows in Hrows.
  unfold serve, create_styled_sheet. cbn [destructure bindM bind ret].
  rewrite H1, H2. cbn [negb orb]. rewrite Hdec.
  cbn [bindM lift bind].
  destruct (selectAll (String.eqb "table") (parseDocument rt html))
    as [|table others]; [discriminate|].
  set (trs := selectAll (String.eqb "tr") (childNodes_of table)) in *.
  clearbody trs. injection Hrows as ->.
  fold (Observe.table_values rows).
  destruct (table_values_trimmed rows) as [Hlen Hcells].
  split; [exact Hlen|]. split; [exact Hcells|].
  assert (Hshade :
            map Observe.row_shade
                (headerStyle
                   :: map_indexed bodyStyle 0 (tl (Observe.table_values rows)))
            = (0, 1, {| Sheets.red := 25; Sheets.green := 32;
                        Sheets.blue := 71 |})
              :: map (fun k => (k, S k, if Nat.odd k then Observe.white
                                        else Observe.light_grey))
                     (seq 1 (List.length rows - 1))).
  { cbn [map]. rewrite bodyStyles_shades. f_equal. f_equal. f_equal.
    rewrite <- Hlen. destruct (Observe.table_values rows); cbn; lia. }
  cbn -[lit headerStyle bodyStyle map_indexed Observe.table_values
        String.eqb].
  destruct (o _ (sheets_spreadsheets_create _ _)) as [e | id];
    cbn -[lit headerStyle bodyStyle map_indexed Observe.table_values
          String.eqb].
  { eexists _, _. split; [reflexivity|]. intros id H. discriminate H. }
  destruct (o _ (sheets_spreadsheets_values_update _ _ _ _)) as [e | w];
    cbn -[lit headerStyle bodyStyle map_indexed Observe.table_values
          String.eqb].
  { eexists _, _. split; [reflexivity|]. intros id' H. injection H as <-.
    eexists _, _. split; [reflexivity|]. intros w H. discriminate H. }
  destruct (o _ (sheets_spreadsheets_batchUpdate _ _ _)) as [e | f];
    cbn -[lit headerStyle bodyStyle map_indexed Observe.table_values
          String.eqb];
    (eexists _, _; split; [reflexivity|]; intros id' H; injection H as <-;
     eexists _, _; split; [reflexivity|]; intros w' _;
     eexists _, _; split; [reflexivity|]; split; [exact Hshade|];
     intros f' H; first [discriminate H | reflexivity]).
Qed.

Lemma sheet_grid_and_formatting_witness :
  let rt := Sample.runtime_for Sample.table_html
                               (Sample.doc_of Sample.table_dom) in
  let body := Sample.table_body in
  let rows := selectAll (String.eqb "tr")
                (childNodes_of (List.hd (TextNode []) Sample.table_dom)) in
  let title := JString (lit "Styled Sheet") in
  let values := Observe.table_values rows in
  let trace :=
    fst (serve Sample.all_ok (create_styled_sheet rt (Some body))) in
  let resp :=
    snd (serve Sample.all_ok (create_styled_sheet rt (Some body))) in
  List.length values = List.length rows
  /\ Forall (Forall (fun cell => cell = [] \/ trimmed cell)) values
  /\ exists created rest1,
       trace
       = Event (sheets_spreadsheets_create (Req.access_token body) title)
               created :: rest1
       /\ forall id,
            created = inr id ->
            exists written rest2,
              rest1
              = Event (sheets_spreadsheets_values_update
                         (Req.access_token body) id (lit "Sheet1!A1") values)
                      written :: rest2
              /\ forall w,
                   written = inr w ->
                   exists requests formatted,
                     rest2
                     = [ Event (sheets_spreadsheets_batchUpdate
                                  (Req.access_token body) id requests)
                               formatted ]
                     /\ map Observe.row_shade requests
                        = (0, 1, {| Sheets.red := 25; Sheets.green := 32;
                                    Sheets.blue := 71 |})
                          :: map (fun k =>
                                    (k, S k,
                                     if Nat.odd k then Observe.white
                                     else Observe.light_grey))
                                 (seq 1 (List.length rows - 1))
                     /\ forall f,
                          formatted = inr f ->
                          resp
                          = {| status := 200;
                               json :=
                                 url_body
                                   (lit "https://docs.google.com/spreadsheets/d/"
                                    ++ id ++ lit "/edit") |}.
Proof.
  apply (sheet_grid_and_formatting
           (Sample.runtime_for Sample.table_html
                               (Sample.doc_of Sample.table_dom))
           Sample.all_ok Sample.table_body Sample.table_html
           (selectAll (String.eqb "tr")
                      (childNodes_of (List.hd (TextNode []) Sample.table_dom))));
    reflexivity.
Defined.

(** The same request, run: the grid written and the answer. *)
Example sheet_run :
  let rt := Sample.runtime_for Sample.table_html
                               (Sample.doc_of Sample.table_dom) in
  let out :=
    serve Sample.all_ok (create_styled_sheet rt (Some Sample.table_body)) in
  Observe.calls (fst out)
  = [ sheets_spreadsheets_create (JString (lit "token"))
                                 (JString (lit "Styled Sheet"));
      sheets_spreadsheets_values_update
        (JString (lit "token")) (lit "sheet1") (lit "Sheet1!A1")
        [ [lit "Name"; lit "Age"]; [lit "Ann"; lit "7"];
          [lit "Bob"; lit "9"] ];
      sheets_spreadsheets_batchUpdate
        (JString (lit "token")) (lit "sheet1")
        [ headerStyle; bodyStyle [] 0; bodyStyle [] 1 ] ]
  /\ snd out
     = {| status := 200;
          json := url_body
                    (lit "https://docs.google.com/spreadsheets/d/sheet1/edit")
       |}.
Proof. split; reflexivity. Qed.

(** ** POST /upload-doc: the sequence of a successful run *)

(** X17. POST /upload-doc answers 200 only after the whole sequence went
    through, in this order and with nothing else: the decoded HTML is
    converted, the result written to the temporary file, the file
    uploaded under the request's [file_name], the temporary file
    deleted, the created document read, its direction updated; the link
    returned is that of the document the upload created. *)
Theorem upload_success_sequence (rt : runtime) (o : oracle)
        (body : Req.body) :
  status (snd (serve o (upload_doc rt (Some body)))) = 200%Z ->
  exists html docx documentId requests,
    decode_base64_utf8 rt (Req.html_base64 body) = inr html
    /\ Observe.calls (fst (serve o (upload_doc rt (Some body))))
       = [ htmlToDocx html;
           fs_writeFileSync docx;
           drive_files_create (Req.access_token body) (Req.file_name body);
           fs_unlinkSync;
           docs_documents_get (Req.access_token body) documentId;
           docs_documents_batchUpdate (Req.access_token body) documentId
                                      requests ]
    /\ In (Event (htmlToDocx html) (inr docx))
          (fst (serve o (upload_doc rt (Some body))))
    /\ In (Event (drive_files_create (Req.access_token body)
                                     (Req.file_name body))
                 (inr documentId))
          (fst (serve o (upload_doc rt (Some body))))
    /\ json (snd (serve o (upload_doc rt (Some body))))
       = url_body (lit "https://docs.google.com/document/d/"
                   ++ documentId ++ lit "/edit").
Proof.
  run_handler o; cbn -[lit]; intros H; try discriminate H.
  eexists _, _, _, _.
  split; [reflexivity|]. split; [reflexivity|].
  split; [left; reflexivity|].
  split; [right; right; left; reflexivity | reflexivity].
Qed.

Lemma upload_success_sequence_witness :
  let rt := Sample.runtime_for Sample.hebrew_html (Sample.doc_of []) in
  exists html docx documentId requests,
    decode_base64_utf8 rt (Req.html_base64 Sample.hebrew_body) = inr html
    /\ Observe.calls (fst (serve Sample.all_ok
                             (upload_doc rt (Some Sample.hebrew_body))))
       = [ htmlToDocx html;
           fs_writeFileSync docx;
           drive_files_create (Req.access_token Sample.hebrew_body)
                              (Req.file_name Sample.hebrew_body);
           fs_unlinkSync;
           docs_documents_get (Req.access_token Sample.hebrew_body)
                              documentId;
           docs_documents_batchUpdate
             (Req.access_token Sample.hebrew_body) documentId requests ]
    /\ In (Event (htmlToDocx html) (inr docx))
          (fst (serve Sample.all_ok (upload_doc rt (Some Sample.hebrew_body))))
    /\ In (Event (drive_files_create (Req.access_token Sample.hebrew_body)
                                     (Req.file_name Sample.hebrew_body))
                 (inr documentId))
          (fst (serve Sample.all_ok (upload_doc rt (Some Sample.hebrew_body))))
    /\ json (snd (serve Sample.all_ok
                    (upload_doc rt (Some Sample.hebrew_body))))
       = url_body (lit "https://docs.google.com/document/d/"
                   ++ documentId ++ lit "/edit").
Proof.
  apply (upload_success_sequence
           (Sample.runtime_for Sample.hebrew_html (Sample.doc_of []))
           Sample.all_ok Sample.hebrew_body).
  reflexivity.
Defined.

(** ** The title-delimited segmenter: what is lost *)

(** X18. A bold-only paragraph without visible text takes the content
    that follows it away: the slide it opens has an empty title and is
    filtered out with everything buffered for it, so that the slides are
    those of the document without that paragraph and without the content
    up to the next title boundary. *)
Theorem empty_title_drops_its_content (d d' : document)
        (before content after : list node) (b : node) :
  children (body d) = before ++ b :: content ++ after ->
  children (body d') = before ++ after ->
  is_title_boundary b = true ->
  Spec.trimmed_text b = [] ->
  Forall (fun el => is_title_boundary el = false) content ->
  (after = [] \/ exists b' rest, after = b' :: rest
                                 /\ is_title_boundary b' = true) ->
  extractSlidesFromHtml d = extractSlidesFromHtml d'.
Proof.
  intros Hd Hd' Hb Ht Hcontent Hafter.
  rewrite !extract_refines_segments, Hd, Hd'.
  rewrite (segments_cut _ _ _ _ _ Hb), filter_app.
  cbn [Spec.segments]. rewrite Hb. cbn [filter]. unfold keep at 2.
  cbn [title]. rewrite Ht. cbn [nonempty].
  rewrite (segments_no_boundary _ _ _ _ Hcontent).
  destruct Hafter as [-> | (b' & rest & -> & Hb')].
  - now rewrite !app_nil_r.
  - now rewrite (segments_cut _ _ _ _ _ Hb'), filter_app.
Qed.

Lemma empty_title_drops_its_content_witness :
  extractSlidesFromHtml
    (Sample.doc_of [ Sample.bold_paragraph "A"; Sample.paragraph "x";
                     Sample.bold_paragraph " "; Sample.paragraph "lost";
                     Sample.bold_paragraph "B"; Sample.paragraph "y" ])
  = extractSlidesFromHtml
      (Sample.doc_of [ Sample.bold_paragraph "A"; Sample.paragraph "x";
                       Sample.bold_paragraph "B"; Sample.paragraph "y" ]).
Proof.
  apply (empty_title_drops_its_content
           (Sample.doc_of [ Sample.bold_paragraph "A"; Sample.paragraph "x";
                            Sample.bold_paragraph " ";
                            Sample.paragraph "lost";
                            Sample.bold_paragraph "B"; Sample.paragraph "y" ])
           (Sample.doc_of [ Sample.bold_paragraph "A"; Sample.paragraph "x";
                            Sample.bold_paragraph "B"; Sample.paragraph "y" ])
           [ Sample.bold_paragraph "A"; Sample.paragraph "x" ]
           [ Sample.paragraph "lost" ]
           [ Sample.bold_paragraph "B"; Sample.paragraph "y" ]
           (Sample.bold_paragraph " ")).
  - reflexivity.
  - reflexivity.
  - reflexivity.
  - reflexivity.
  - repeat constructor.
  - right. exists (Sample.bold_paragraph "B"), [Sample.paragraph "y"].
    split; reflexivity.
Defined.
